(** * NAVCore platform: ledger validation, allocation helpers and the close gate

    A shallow embedding of the TypeScript front end of the NAV platform
    ([lib/utils.ts], [lib/feedback.ts], [context/PlatformContext.tsx],
    [views/LedgerView.tsx], [views/CloseMonthView.tsx], [types/platform.ts])
    together with a model of the accounting engine that the front end calls
    over HTTP.

    JavaScript numbers are IEEE 754 binary64 values and are embedded as
    Rocq's primitive floats, whose operations are the same binary64
    operations.  JavaScript strings are embedded as [string]; a character
    stands for one code unit, and the development covers the code units
    below 256. *)

From stdpp Require Import gmap strings.
From Stdlib Require Import ZArith QArith String Ascii List Bool Lia DecimalString DecimalPos.
From Stdlib Require Import Floats.
Import ListNotations.

Local Open Scope string_scope.
Local Open Scope Z_scope.

(** ** JavaScript primitives used by the sources *)

Module JS.

Definition number := float.

(** [x === y] on numbers: IEEE equality ([+0 === -0], [NaN !== NaN]). *)
Definition strict_eq (x y : number) : bool := PrimFloat.eqb x y.

(** [x < y] on numbers. *)
Definition lt (x y : number) : bool := PrimFloat.ltb x y.

(** [Number.isFinite(x)]. *)
Definition isFinite (x : number) : bool := PrimFloat.is_finite x.

(** [!s] for a string [s]: only the empty string is falsy. *)
Definition not_string (s : string) : bool :=
  match s with
  | EmptyString => true
  | String _ _ => false
  end.

(** White space and line terminators stripped by [String.prototype.trim],
    among the code units below 256: TAB, LF, VT, FF, CR, SP and NBSP. *)
Definition isWhiteSpace (c : ascii) : bool :=
  let n := N_of_ascii c in
  (((9 <=? n) && (n <=? 13)) || (n =? 32) || (n =? 160))%N.

Fixpoint trimStart (s : string) : string :=
  match s with
  | EmptyString => EmptyString
  | String c s' => if isWhiteSpace c then trimStart s' else s
  end.

Fixpoint trimEnd (s : string) : string :=
  match s with
  | EmptyString => EmptyString
  | String c s' =>
      match trimEnd s' with
      | EmptyString => if isWhiteSpace c then EmptyString else String c EmptyString
      | t => String c t
      end
  end.

(** [s.trim()]. *)
Definition trim (s : string) : string := trimEnd (trimStart s).

(** [s.replaceAll(pat, rep)] for a one-character pattern [pat]. *)
Fixpoint replaceAll (pat : ascii) (rep : string) (s : string) : string :=
  match s with
  | EmptyString => EmptyString
  | String c s' =>
      if Ascii.eqb c pat then rep ++ replaceAll pat rep s'
      else String c (replaceAll pat rep s')
  end.

(** The one-character string holding a double quote. *)
Definition dquote : string := String (ascii_of_N 34) EmptyString.

(** [s.length]. *)
Definition length (s : string) : nat := String.length s.

(** *** [Number(s)]: ECMAScript's StringToNumber

    The grammar is StringNumericLiteral: optional white space around either
    a signed decimal literal (digits, optional fraction, optional exponent,
    or [Infinity]) or an unsigned binary, octal or hexadecimal integer
    literal.  Anything else is [NaN]; the empty or blank string is [+0].  The
    mathematical value is rounded to the nearest binary64 value, ties to
    even. *)

Definition digitValue (c : ascii) : option N :=
  let n := N_of_ascii c in
  (if (48 <=? n) && (n <=? 57) then Some (n - 48)
   else if (97 <=? n) && (n <=? 102) then Some (n - 87)
   else if (65 <=? n) && (n <=? 70) then Some (n - 55)
   else None)%N.

Definition isDecimalDigit (c : ascii) : bool :=
  let n := N_of_ascii c in ((48 <=? n) && (n <=? 57))%N.

(** The longest prefix of decimal digits, and what follows it. *)
Fixpoint spanDigits (s : string) : string * string :=
  match s with
  | EmptyString => (EmptyString, EmptyString)
  | String c s' =>
      if isDecimalDigit c
      then let (d, r) := spanDigits s' in (String c d, r)
      else (EmptyString, s)
  end.

(** The value of a string of digits in the given radix, most significant
    digit first; [None] when a character is not a digit of that radix. *)
Fixpoint digitsValue (radix : N) (acc : N) (s : string) : option N :=
  match s with
  | EmptyString => Some acc
  | String c s' =>
      match digitValue c with
      | Some d => if (d <? radix)%N then digitsValue radix (acc * radix + d)%N s' else None
      | None => None
      end
  end.

Definition signedZero (neg : bool) : number :=
  if neg then (-0)%float else 0%float.

Definition signedInfinity (neg : bool) : number :=
  if neg then neg_infinity else infinity.

(** The binary64 value nearest to [(-1)^neg * m]. *)
Definition roundInteger (neg : bool) (m : N) : number :=
  match m with
  | N0 => signedZero neg
  | Npos p => SF2Prim (binary_round prec emax neg p 0)
  end.

(** The binary64 value nearest to [(-1)^neg * m * 10^e], where the literal
    had [len] mantissa digits (so [m < 10^len]).  Exponents far outside the
    binary64 range are decided without building the power of ten: above
    [10^400] every nonzero value overflows, and below [10^-400] every value
    rounds to zero. *)
Definition roundDecimal (neg : bool) (m : N) (e : Z) (len : Z) : number :=
  match m with
  | N0 => signedZero neg
  | Npos p =>
      if 0 <=? e then
        if 400 <? e then signedInfinity neg
        else SF2Prim (binary_round prec emax neg (p * Z.to_pos (10 ^ e)) 0)
      else
        if e + len <? -400 then signedZero neg
        else SF2Prim (SFdiv prec emax (S754_finite neg p 0)
                                      (S754_finite false (Z.to_pos (10 ^ (- e))) 0))
  end.

(** ExponentPart, which must end the literal: [None] when malformed. *)
Definition parseExponent (s : string) : option Z :=
  match s with
  | EmptyString => Some 0
  | String c r =>
      if Ascii.eqb c "e" || Ascii.eqb c "E" then
        let '(neg, r') :=
          match r with
          | String "+" t => (false, t)
          | String "-" t => (true, t)
          | _ => (false, r)
          end in
        let (d, rest) := spanDigits r' in
        match d, rest, digitsValue 10 0 d with
        | String _ _, EmptyString, Some v =>
            Some (if neg then - Z.of_N v else Z.of_N v)
        | _, _, _ => None
        end
      else None
  end.

(** StrUnsignedDecimalLiteral, with the sign already read. *)
Definition parseUnsignedDecimal (neg : bool) (s : string) : number :=
  if String.eqb s "Infinity" then signedInfinity neg
  else
    let (ip, r1) := spanDigits s in
    let (fp, r2) :=
      match r1 with
      | String "." t => spanDigits t
      | _ => (EmptyString, r1)
      end in
    if not_string ip && not_string fp then nan
    else
      match parseExponent r2, digitsValue 10 0 (ip ++ fp) with
      | Some ex, Some m =>
          roundDecimal neg m (ex - Z.of_nat (String.length fp))
                       (Z.of_nat (String.length (ip ++ fp)))
      | _, _ => nan
      end.

(** NonDecimalIntegerLiteral: the digits after the [0x], [0o] or [0b]. *)
Definition parseRadix (radix : N) (digits : string) : number :=
  match digits with
  | EmptyString => nan
  | _ =>
      match digitsValue radix 0 digits with
      | Some m => roundInteger false m
      | None => nan
      end
  end.

Definition parseNumericLiteral (s : string) : number :=
  match s with
  | String "0" (String "x" d) | String "0" (String "X" d) => parseRadix 16 d
  | String "0" (String "o" d) | String "0" (String "O" d) => parseRadix 8 d
  | String "0" (String "b" d) | String "0" (String "B" d) => parseRadix 2 d
  | String "+" t => parseUnsignedDecimal false t
  | String "-" t => parseUnsignedDecimal true t
  | _ => parseUnsignedDecimal false s
  end.

(** [Number(s)] for a string [s]. *)
Definition Number (s : string) : number :=
  match trim s with
  | EmptyString => 0%float
  | t => parseNumericLiteral t
  end.

End JS.

(** ** lib/feedback.ts *)

Module Feedback.

(** [parseMoneyInput(raw: string): number | null]. *)
Definition parseMoneyInput (raw : string) : option JS.number :=
  if JS.not_string raw then None
  else
    let normalized := JS.trim (JS.replaceAll "," "" raw) in
    if JS.not_string normalized then None
    else
      let value := JS.Number normalized in
      if negb (JS.isFinite value) then None
      else Some value.

End Feedback.

(** ** lib/utils.ts: the allocation helpers *)

Module Utils.

Local Open Scope float_scope.

(** [calculateOwnership(openingBalance, totalOpeningNAV)]. *)
Definition calculateOwnership (openingBalance totalOpeningNAV : JS.number) : JS.number :=
  if JS.strict_eq totalOpeningNAV 0 then 0
  else (openingBalance / totalOpeningNAV) * 100.

(** [calculateNetAllocation(ownership, totalIncome, totalExpenses)]. *)
Definition calculateNetAllocation (ownership totalIncome totalExpenses : JS.number) : JS.number :=
  let netIncome := totalIncome - totalExpenses in
  (ownership / 100) * netIncome.

(** [calculateClosingBalance(openingBalance, contribution, withdrawal, netAllocation)]. *)
Definition calculateClosingBalance
  (openingBalance contribution withdrawal netAllocation : JS.number) : JS.number :=
  openingBalance + contribution - withdrawal + netAllocation.

End Utils.

(** ** types/platform.ts

    The records keep the fields that the modelled code reads or sends. *)

Module Platform.

Inductive PeriodStatus := draft | review | closed.

Inductive EntryType := contribution | withdrawal | income | expense | adjustment.

Definition PeriodStatus_eqb (a b : PeriodStatus) : bool :=
  match a, b with
  | draft, draft | review, review | closed, closed => true
  | _, _ => false
  end.

Definition EntryType_eqb (a b : EntryType) : bool :=
  match a, b with
  | contribution, contribution | withdrawal, withdrawal | income, income
  | expense, expense | adjustment, adjustment => true
  | _, _ => false
  end.

(** The string a value of the union type is at run time. *)
Definition EntryType_string (t : EntryType) : string :=
  match t with
  | contribution => "contribution"
  | withdrawal => "withdrawal"
  | income => "income"
  | expense => "expense"
  | adjustment => "adjustment"
  end.

Record PeriodSummary := {
  ps_id : Z;
  ps_club_id : Z;
  ps_year : Z;
  ps_month : Z;
  ps_status : PeriodStatus;
  ps_opening_nav : string;
  ps_closing_nav : string;
  ps_reconciliation_diff : string;
  ps_locked_at : option string
}.

Record PeriodState := {
  period_id : Z;
  club_id : Z;
  status : PeriodStatus;
  opening_nav : string;
  closing_nav : string;
  reconciliation_diff : string;
  locked_at : option string
}.

Record LedgerEntry := {
  id : Z;
  le_club_id : Z;
  le_period_id : Z;
  investor_id : option Z;
  entry_type : EntryType;
  amount : string;
  category : string;
  tx_date : string;
  description : string;
  note : option string;
  reference : option string
}.

Record ReconciliationStamp := {
  reconciled : bool;
  stamp : string;
  mismatch_ugx : string;
  club_closing_nav : string;
  investor_total : string
}.

(** [checklist: Record<string, boolean>] is a finite map from keys to flags. *)
Record CloseChecklist := {
  can_close : bool;
  checklist : gmap string bool;
  reconciliation_stamp : string;
  cc_mismatch_ugx : string
}.

End Platform.

(** ** lib/api.ts: the requests the views send *)

Module Api.

Record CreatePayload := {
  cp_entry_type : Platform.EntryType;
  cp_amount : JS.number;
  cp_description : string;
  cp_category : string;
  cp_tx_date : option string;
  cp_note : option string;
  cp_reference : option string;
  cp_investor_id : option JS.number
}.

Record UpdatePayload := {
  up_amount : JS.number;
  up_description : string;
  up_category : string;
  up_tx_date : option string;
  up_reference : option string;
  up_note : option string
}.

Inductive Request :=
| createLedgerEntry (clubId periodId : Z) (payload : CreatePayload)
| updateLedgerEntry (clubId periodId entryId : Z) (payload : UpdatePayload)
| deleteLedgerEntry (clubId periodId entryId : Z)
| submitReview (clubId periodId : Z)
| closeMonth (clubId periodId : Z).

End Api.

(** ** context/PlatformContext.tsx *)

Module PlatformContext.

Import Platform.

(** The provider's state, as far as the views below read it. *)
Record ProviderState := {
  periods : list PeriodSummary;
  st_selectedClubId : option Z;
  st_selectedPeriodId : option Z;
  st_periodState : option PeriodState;
  st_checklist : option CloseChecklist;
  st_reconciliation : option ReconciliationStamp
}.

(** What [usePlatform()] hands to a view. *)
Record Value := {
  selectedClubId : option Z;
  selectedPeriodId : option Z;
  selectedPeriod : option PeriodSummary;
  periodState : option PeriodState;
  ctx_checklist : option CloseChecklist;
  reconciliation : option ReconciliationStamp;
  locked : bool;
  ctx_status : PeriodStatus
}.

Definition DEFAULT_STATUS : PeriodStatus := draft.

(** [periods.find((period) => period.id === selectedPeriodId) ?? null]. *)
Definition findSelectedPeriod (st : ProviderState) : option PeriodSummary :=
  match st_selectedPeriodId st with
  | None => None
  | Some i => List.find (fun period => ps_id period =? i) (periods st)
  end.

(** [selectedPeriod?.status === 'closed' || periodState?.status === 'closed']. *)
Definition computeLocked (sp : option PeriodSummary) (pst : option PeriodState) : bool :=
  match sp with
  | Some p => PeriodStatus_eqb (ps_status p) closed
  | None => false
  end
  ||
  match pst with
  | Some s => PeriodStatus_eqb (status s) closed
  | None => false
  end.

(** [selectedPeriod?.status ?? periodState?.status ?? DEFAULT_STATUS]. *)
Definition computeStatus (sp : option PeriodSummary) (pst : option PeriodState) : PeriodStatus :=
  match sp with
  | Some p => ps_status p
  | None =>
      match pst with
      | Some s => status s
      | None => DEFAULT_STATUS
      end
  end.

Definition usePlatform (st : ProviderState) : Value :=
  let sp := findSelectedPeriod st in
  {| selectedClubId := st_selectedClubId st;
     selectedPeriodId := st_selectedPeriodId st;
     selectedPeriod := sp;
     periodState := st_periodState st;
     ctx_checklist := st_checklist st;
     reconciliation := st_reconciliation st;
     locked := computeLocked sp (st_periodState st);
     ctx_status := computeStatus sp (st_periodState st) |}.

End PlatformContext.

(** ** views/LedgerView.tsx *)

Module LedgerView.

Import Platform PlatformContext.

(** The component's [useState] cells that the handlers read. *)
Record State := {
  submitting : bool;
  entryType : EntryType;
  amount : string;
  description : string;
  category : string;
  txDate : string;
  note : string;
  reference : string;
  investorId : string;
  editOpen : bool;
  editingEntry : option LedgerEntry;
  editAmount : string;
  editDescription : string;
  editCategory : string;
  editTxDate : string;
  editReference : string;
  editNote : string;
  deleteTarget : option LedgerEntry
}.

(** What a handler does before its first [await]: nothing (an early
    [return]), [setError(message)], or a request to the API. *)
Inductive Outcome :=
| Ignored
| Rejected (message : string)
| Sent (request : Api.Request).

Inductive Validation :=
| Valid (amount : JS.number) (description : string)
| Invalid (message : string).

(** [!id] for [id: number | null]: [null] and [0] are falsy. *)
Definition not_id (i : option Z) : bool :=
  match i with
  | None => true
  | Some z => z =? 0
  end.

(** [String(id)] for an integer id. *)
Definition String_of_id (i : Z) : string :=
  NilZero.string_of_int (Z.to_int i).

(** [s || fallback] for a string [s]. *)
Definition or_string (s fallback : string) : string :=
  if JS.not_string s then fallback else s.

(** [s || undefined] for a string [s]. *)
Definition or_undefined (s : string) : option string :=
  if JS.not_string s then None else Some s.

Definition requiresInvestor (entryType : EntryType) : bool :=
  EntryType_eqb entryType contribution
  || EntryType_eqb entryType withdrawal
  || EntryType_eqb entryType adjustment.

Definition canEditEntries (status : PeriodStatus) : bool :=
  PeriodStatus_eqb status draft || PeriodStatus_eqb status review.

Definition canDeleteEntries (status : PeriodStatus) : bool :=
  PeriodStatus_eqb status draft.

Definition validateEntryInput
  (amountInput descInput selectedInvestorId : string) (type : EntryType) : Validation :=
  match Feedback.parseMoneyInput amountInput with
  | None => Invalid "Amount must be numeric. Example: 2500000 or 2,500,000."
  | Some parsedAmount =>
      if JS.strict_eq parsedAmount 0%float then
        Invalid "Amount cannot be zero. Use a value like 1500000."
      else if negb (EntryType_eqb type adjustment) && JS.lt parsedAmount 0%float then
        Invalid (EntryType_string type
                 ++ " must be positive. Use adjustment for negative correction values.")
      else
        let cleanDescription := JS.trim descInput in
        if (JS.length cleanDescription <? 3)%nat then
          Invalid ("Description is required (at least 3 characters). Example: "
                   ++ JS.dquote ++ "Monthly management fee" ++ JS.dquote ++ ".")
        else if (EntryType_eqb type contribution
                 || EntryType_eqb type withdrawal
                 || EntryType_eqb type adjustment)
                && JS.not_string selectedInvestorId then
          Invalid ("Select an investor for " ++ EntryType_string type
                   ++ " entries so allocations remain auditable.")
        else Valid parsedAmount cleanDescription
  end.

Definition handleSubmit (ctx : Value) (s : State) : Outcome :=
  match selectedClubId ctx, selectedPeriodId ctx with
  | Some clubId, Some periodId =>
      if (clubId =? 0) || (periodId =? 0) || locked ctx then Ignored
      else
        match validateEntryInput (amount s) (description s)
                                 (investorId s) (entryType s) with
        | Invalid message => Rejected message
        | Valid parsedAmount description =>
            Sent (Api.createLedgerEntry clubId periodId
              {| Api.cp_entry_type := entryType s;
                 Api.cp_amount := parsedAmount;
                 Api.cp_description := description;
                 Api.cp_category := or_string (JS.trim (category s)) "general";
                 Api.cp_tx_date := or_undefined (txDate s);
                 Api.cp_note := or_undefined (JS.trim (note s));
                 Api.cp_reference := or_undefined (JS.trim (reference s));
                 Api.cp_investor_id :=
                   if requiresInvestor (entryType s) && negb (JS.not_string (investorId s))
                   then Some (JS.Number (investorId s)) else None |})
        end
  | _, _ => Ignored
  end.

(** [openEdit(entry)]; [numberToString] stands for [String(x)] on numbers. *)
Definition openEdit (numberToString : JS.number -> string)
  (ctx : Value) (s : State) (entry : LedgerEntry) : State :=
  if negb (canEditEntries (ctx_status ctx)) || locked ctx then s
  else
    {| submitting := submitting s;
       entryType := entryType s;
       amount := amount s;
       description := description s;
       category := category s;
       txDate := txDate s;
       note := note s;
       reference := reference s;
       investorId := investorId s;
       editOpen := true;
       editingEntry := Some entry;
       editAmount := numberToString (JS.Number (Platform.amount entry));
       editDescription := Platform.description entry;
       editCategory := Platform.category entry;
       editTxDate := tx_date entry;
       editReference := match Platform.reference entry with Some r => r | None => "" end;
       editNote := match Platform.note entry with Some n => n | None => "" end;
       deleteTarget := deleteTarget s |}.

(** [editingEntry.investor_id ? String(editingEntry.investor_id) : ''],
    the constant [editInvestorId] of [handleUpdateEntry]. *)
Definition editInvestorId (editingEntry : LedgerEntry) : string :=
  if not_id (investor_id editingEntry) then ""
  else match investor_id editingEntry with
       | Some i => String_of_id i
       | None => ""
       end.

Definition handleUpdateEntry (ctx : Value) (s : State) : Outcome :=
  match selectedClubId ctx, selectedPeriodId ctx, editingEntry s with
  | Some clubId, Some periodId, Some entry =>
      if (clubId =? 0) || (periodId =? 0) || locked ctx then Ignored
      else if PeriodStatus_eqb (ctx_status ctx) closed then Ignored
      else
        match validateEntryInput (editAmount s) (editDescription s)
                                 (editInvestorId entry) (entry_type entry) with
        | Invalid message => Rejected message
        | Valid parsedAmount description =>
            Sent (Api.updateLedgerEntry clubId periodId (id entry)
              {| Api.up_amount := parsedAmount;
                 Api.up_description := description;
                 Api.up_category := or_string (JS.trim (editCategory s)) "general";
                 Api.up_tx_date := or_undefined (editTxDate s);
                 Api.up_reference := or_undefined (JS.trim (editReference s));
                 Api.up_note := or_undefined (JS.trim (editNote s)) |})
        end
  | _, _, _ => Ignored
  end.

Definition handleDeleteEntry (ctx : Value) (s : State) : Outcome :=
  match selectedClubId ctx, selectedPeriodId ctx, deleteTarget s with
  | Some clubId, Some periodId, Some target =>
      if (clubId =? 0) || (periodId =? 0) || locked ctx
         || negb (canDeleteEntries (ctx_status ctx))
      then Ignored
      else Sent (Api.deleteLedgerEntry clubId periodId (id target))
  | _, _, _ => Ignored
  end.

(** The [disabled] attribute of the Post Entry button. *)
Definition postEntryDisabled (ctx : Value) (s : State) : bool :=
  locked ctx || submitting s || not_id (selectedClubId ctx) || not_id (selectedPeriodId ctx).

(** The [disabled] attribute of a row's edit button. *)
Definition editButtonDisabled (ctx : Value) (s : State) : bool :=
  submitting s || locked ctx || negb (canEditEntries (ctx_status ctx)).

(** The [disabled] attribute of a row's delete button. *)
Definition deleteButtonDisabled (ctx : Value) (s : State) : bool :=
  submitting s || locked ctx || negb (canDeleteEntries (ctx_status ctx)).

End LedgerView.

(** ** views/CloseMonthView.tsx *)

Module CloseMonthView.

Import Platform PlatformContext.

Record Row := {
  key : string;
  label : string;
  pass : option bool
}.

(** [checklistRows]: a key absent from the record reads as [undefined]. *)
Definition checklistRows (c : option CloseChecklist) : list Row :=
  match c with
  | None => []
  | Some c =>
      [ {| key := "has_positions"; label := "Investor positions exist";
           pass := checklist c !! "has_positions" |};
        {| key := "has_ledger_entries"; label := "Ledger entries posted";
           pass := checklist c !! "has_ledger_entries" |};
        {| key := "submitted_for_review"; label := "Submitted for review";
           pass := checklist c !! "submitted_for_review" |};
        {| key := "reconciled"; label := "Reconciliation exact";
           pass := checklist c !! "reconciled" |};
        {| key := "not_already_closed"; label := "Period not already closed";
           pass := checklist c !! "not_already_closed" |} ]
  end.

(** [checklist?.can_close], read as a condition. *)
Definition checklistCanClose (c : option CloseChecklist) : bool :=
  match c with
  | Some c => can_close c
  | None => false
  end.

(** The [disabled] attribute of the Submit for Review button. *)
Definition submitReviewDisabled (ctx : Value) (submitting : bool) : bool :=
  submitting || locked ctx || negb (PeriodStatus_eqb (ctx_status ctx) draft).

(** The [disabled] attribute of the Run Close button. *)
Definition runCloseDisabled (ctx : Value) (submitting : bool) : bool :=
  submitting || locked ctx || negb (checklistCanClose (ctx_checklist ctx)).

Definition handleSubmitReview (ctx : Value) : option Api.Request :=
  match selectedClubId ctx, selectedPeriodId ctx with
  | Some clubId, Some periodId =>
      if (clubId =? 0) || (periodId =? 0) || locked ctx then None
      else Some (Api.submitReview clubId periodId)
  | _, _ => None
  end.

Definition handleCloseMonth (ctx : Value) : option Api.Request :=
  match selectedClubId ctx, selectedPeriodId ctx with
  | Some clubId, Some periodId =>
      if (clubId =? 0) || (periodId =? 0) then None
      else Some (Api.closeMonth clubId periodId)
  | _, _ => None
  end.

(** A click on Run Close: a disabled button does not call its handler. *)
Definition clickRunClose (ctx : Value) (submitting : bool) : option Api.Request :=
  if runCloseDisabled ctx submitting then None else handleCloseMonth ctx.

End CloseMonthView.

(** ** The NAV accounting engine

    The engine runs in the back end, behind the routes that [lib/api.ts]
    calls; its code is not among the sources.  Money is a fixed-precision
    decimal of scale 2 and is held as its number of hundredths; an ownership
    fraction has scale 6 and is held as its number of millionths. *)

Module Engine.

Import Platform.

(** Modelled from the spec: money, a decimal of scale 2 (4.1), as its
    number of hundredths. *)
Definition Money := Z.

(** Modelled from the spec: an ownership fraction, a decimal of scale 6
    (4.1), as its number of millionths. *)
Definition Ownership := Z.

(** Modelled from the spec: the investor id of the data model (3). *)
Definition InvestorId := Z.

(** Modelled from the spec: the scale of ownership fractions (4.1), 6
    decimals. *)
Definition OWNERSHIP_SCALE : Z := 1000000.

(** Modelled from the spec: the Monetary Arithmetic Utility (4.1).  The
    quotient [n / d] rounded to an integer, half-up on the magnitude; a zero
    denominator yields 0. *)
Definition div_round_half_up (n d : Z) : Z :=
  if d =? 0 then 0
  else Z.sgn n * Z.sgn d * ((2 * Z.abs n + Z.abs d) / (2 * Z.abs d)).

(** Modelled from the spec: a ledger entry of the data model (3). *)
Record LedgerEntry := {
  entry_type : EntryType;
  amount : Money;
  investor_id : option InvestorId;
  tx_date : string
}.

(** Modelled from the spec: the per-type club totals of the Ledger
    Aggregator (4.2). *)
Record Totals := {
  total_contributions : Money;
  total_withdrawals : Money;
  total_income : Money;
  total_expenses : Money;
  total_adjustments : Money
}.

(** Modelled from the spec: the per-investor totals of the Ledger
    Aggregator (4.2). *)
Record InvestorTotals := {
  investor_contributions : Money;
  investor_withdrawals : Money;
  investor_adjustment_total : Money
}.

(** Modelled from the spec: summation of money values (4.2). *)
Definition sum_money (l : list Money) : Money := fold_right Z.add 0 l.

(** Modelled from the spec: the Ledger Aggregator (4.2), per-type club
    totals by summation over the period's entries. *)
Definition total_of (t : EntryType) (entries : list LedgerEntry) : Money :=
  sum_money (map amount (filter (fun e => EntryType_eqb (entry_type e) t) entries)).

(** Modelled from the spec: the Ledger Aggregator (4.2), the five club
    totals; a ledger without entries yields zeros. *)
Definition aggregate (entries : list LedgerEntry) : Totals :=
  {| total_contributions := total_of contribution entries;
     total_withdrawals := total_of withdrawal entries;
     total_income := total_of income entries;
     total_expenses := total_of expense entries;
     total_adjustments := total_of adjustment entries |}.

(** Modelled from the spec: the totals of an investor without entries
    (4.2). *)
Definition zero_investor_totals : InvestorTotals :=
  {| investor_contributions := 0; investor_withdrawals := 0; investor_adjustment_total := 0 |}.

(** Modelled from the spec: one entry added to its investor's totals
    (4.2); income and expenses are club-level and leave them as they are. *)
Definition add_to_investor (e : LedgerEntry) (t : InvestorTotals) : InvestorTotals :=
  match entry_type e with
  | contribution =>
      {| investor_contributions := investor_contributions t + amount e;
         investor_withdrawals := investor_withdrawals t;
         investor_adjustment_total := investor_adjustment_total t |}
  | withdrawal =>
      {| investor_contributions := investor_contributions t;
         investor_withdrawals := investor_withdrawals t + amount e;
         investor_adjustment_total := investor_adjustment_total t |}
  | adjustment =>
      {| investor_contributions := investor_contributions t;
         investor_withdrawals := investor_withdrawals t;
         investor_adjustment_total := investor_adjustment_total t + amount e |}
  | income | expense => t
  end.

(** Modelled from the spec: the Ledger Aggregator (4.2), the mapping from
    investor id to that investor's contributions, withdrawals and net
    adjustment. *)
Definition aggregate_investors (entries : list LedgerEntry) : gmap InvestorId InvestorTotals :=
  fold_right
    (fun e m =>
       match investor_id e with
       | Some i => <[ i := add_to_investor e (default zero_investor_totals (m !! i)) ]> m
       | None => m
       end)
    ∅ entries.

(** Modelled from the spec: InvestorPosition (3), the draft/review row of
    one investor. *)
Record InvestorPosition := {
  pos_investor_id : InvestorId;
  opening_balance : Money;
  ownership_pct : Ownership;
  income_share : Money;
  expense_share : Money;
  net_allocation : Money;
  contributions : Money;
  withdrawals : Money;
  closing_balance : Money
}.

(** Modelled from the spec: Allocation Engine (4.3) step 1,
    [opening_balance / club_opening_nav] rounded to 6 decimals, 0 when the
    denominator is 0. *)
Definition compute_ownership_pct (opening_balance club_opening_nav : Money) : Ownership :=
  div_round_half_up (opening_balance * OWNERSHIP_SCALE) club_opening_nav.

(** Modelled from the spec: Allocation Engine (4.3) step 2,
    [ownership_pct * total] rounded to money scale. *)
Definition compute_share (pct : Ownership) (total : Money) : Money :=
  div_round_half_up (pct * total) OWNERSHIP_SCALE.

(** Modelled from the spec: Allocation Engine (4.3) steps 1 to 4 for one
    investor. *)
Definition allocate_investor
  (club_opening_nav : Money) (t : Totals) (m : gmap InvestorId InvestorTotals)
  (row : InvestorId * Money) : InvestorPosition :=
  let '(i, opening) := row in
  let it := default zero_investor_totals (m !! i) in
  let pct := compute_ownership_pct opening club_opening_nav in
  let inc := compute_share pct (total_income t) in
  let exp := compute_share pct (total_expenses t) in
  let net := inc - exp in
  {| pos_investor_id := i;
     opening_balance := opening;
     ownership_pct := pct;
     income_share := inc;
     expense_share := exp;
     net_allocation := net;
     contributions := investor_contributions it;
     withdrawals := investor_withdrawals it;
     closing_balance :=
       opening + net + investor_contributions it - investor_withdrawals it
       + investor_adjustment_total it |}.

(** Modelled from the spec: the investors present in ledger entries (4.3),
    each once, in ledger order. *)
Fixpoint ledger_investors (entries : list LedgerEntry) : list InvestorId :=
  match entries with
  | [] => []
  | e :: rest =>
      match investor_id e with
      | Some i => i :: filter (fun j => negb (j =? i)) (ledger_investors rest)
      | None => ledger_investors rest
      end
  end.

(** Modelled from the spec: Allocation Engine (4.3), edge case: investors
    of the ledger without an opening position enter with a zero opening
    balance. *)
Definition allocation_rows
  (opening_positions : list (InvestorId * Money)) (entries : list LedgerEntry)
  : list (InvestorId * Money) :=
  opening_positions
  ++ map (fun i => (i, 0))
       (filter (fun i => negb (existsb (fun r => fst r =? i) opening_positions))
               (ledger_investors entries)).

(** Modelled from the spec: Allocation Engine (4.3) step 5, the club-level
    closing NAV from the aggregates. *)
Definition compute_closing_nav (opening_nav : Money) (t : Totals) : Money :=
  opening_nav + total_contributions t - total_withdrawals t
  + total_income t - total_expenses t.

(** Modelled from the spec: the stamp of the Reconciliation Gate (4.4), a
    Reconciled indicator or a Mismatch indicator with the signed amount. *)
Inductive Stamp :=
| Reconciled
| Mismatch (amount : Money).

(** Modelled from the spec: ReconciliationResult (3); the diagnostic
    reasons are left out. *)
Record ReconciliationResult := {
  reconciled : bool;
  mismatch : Money;
  stamp : Stamp
}.

(** Modelled from the spec: the Reconciliation Gate (4.4). *)
Definition reconcile (club_closing_nav : Money) (positions : list InvestorPosition)
  : ReconciliationResult :=
  let m := club_closing_nav - sum_money (map closing_balance positions) in
  {| reconciled := m =? 0;
     mismatch := m;
     stamp := if m =? 0 then Reconciled else Mismatch m |}.

(** Modelled from the spec: AccountingPeriod (3). *)
Record AccountingPeriod := {
  status : PeriodStatus;
  opening_nav : Money;
  closing_nav : Money;
  reconciliation_diff : Money;
  locked_at : option Z
}.

(** Modelled from the spec: NavSnapshot (3), the immutable club-level
    record written at close. *)
Record NavSnapshot := {
  snap_opening_nav : Money;
  snap_totals : Totals;
  snap_closing_nav : Money
}.

(** Modelled from the spec: InvestorBalance (3), the immutable
    per-investor record written at close. *)
Record InvestorBalance := {
  bal_investor_id : InvestorId;
  bal_opening_balance : Money;
  bal_ownership_pct : Ownership;
  bal_income_share : Money;
  bal_expense_share : Money;
  bal_net_allocation : Money;
  bal_contributions : Money;
  bal_withdrawals : Money;
  bal_closing_balance : Money
}.

(** Modelled from the spec: what the storage collaborator (6) holds for
    one period. *)
Record Store := {
  period : AccountingPeriod;
  opening_positions : list (InvestorId * Money);
  ledger : list LedgerEntry;
  snapshot : option NavSnapshot;
  balances : list InvestorBalance
}.

(** Modelled from the spec: the result of [previewPeriod] (6). *)
Record Preview := {
  positions : list InvestorPosition;
  preview_closing_nav : Money;
  reconciliation : ReconciliationResult
}.

(** Modelled from the spec: [previewPeriod] (6), the allocation and the
    reconciliation recomputed from the current ledger. *)
Definition previewPeriod (s : Store) : Preview :=
  let t := aggregate (ledger s) in
  let m := aggregate_investors (ledger s) in
  let nav := opening_nav (period s) in
  let ps := map (allocate_investor nav t m)
                (allocation_rows (opening_positions s) (ledger s)) in
  let cn := compute_closing_nav nav t in
  {| positions := ps;
     preview_closing_nav := cn;
     reconciliation := reconcile cn ps |}.

(** Modelled from the spec: the five conditions of the Close Checklist
    (4.6), by name. *)
Record Conditions := {
  has_positions : bool;
  has_ledger_entries : bool;
  submitted_for_review : bool;
  cond_reconciled : bool;
  not_already_closed : bool
}.

(** Modelled from the spec: the result of [getCloseChecklist] (6). *)
Record CloseChecklist := {
  can_close : bool;
  checklist : gmap string bool;
  reconciliation_stamp : Stamp
}.

(** Modelled from the spec: the five conditions of the Close Checklist
    (4.6). *)
Definition conditions (s : Store) : Conditions :=
  let pv := previewPeriod s in
  {| has_positions := negb (Nat.eqb (List.length (positions pv)) 0);
     has_ledger_entries := negb (Nat.eqb (List.length (ledger s)) 0);
     submitted_for_review := PeriodStatus_eqb (status (period s)) review;
     cond_reconciled := reconciled (reconciliation pv);
     not_already_closed := negb (PeriodStatus_eqb (status (period s)) closed) |}.

(** Modelled from the spec: [getCloseChecklist] (4.6, 6), each condition
    under its key and their conjunction as [can_close]. *)
Definition getCloseChecklist (s : Store) : CloseChecklist :=
  let c := conditions s in
  {| can_close :=
       has_positions c && has_ledger_entries c && submitted_for_review c
       && cond_reconciled c && not_already_closed c;
     checklist :=
       <[ "has_positions" := has_positions c ]>
       (<[ "has_ledger_entries" := has_ledger_entries c ]>
       (<[ "submitted_for_review" := submitted_for_review c ]>
       (<[ "reconciled" := cond_reconciled c ]>
       (<[ "not_already_closed" := not_already_closed c ]> ∅))));
     reconciliation_stamp := stamp (reconciliation (previewPeriod s)) |}.

(** Modelled from the spec: the body of the close-checklist response (6)
    as the front end types it, the engine's flags with the stamp and the
    mismatch rendered as the strings [stamp_text] and [mismatch_text]. *)
Definition checklistResponse (c : CloseChecklist) (stamp_text mismatch_text : string)
  : Platform.CloseChecklist :=
  {| Platform.can_close := can_close c;
     Platform.checklist := checklist c;
     Platform.reconciliation_stamp := stamp_text;
     Platform.cc_mismatch_ugx := mismatch_text |}.

(** Modelled from the spec: the engine's errors (7) that the modelled
    operations return. *)
Inductive Error :=
| StateError
| ReconciliationMismatchError (mismatch : Money)
| NotFoundError.

(** Modelled from the spec: a typed result (7), a value or an error. *)
Inductive Result (A : Type) :=
| Ok (a : A)
| Err (e : Error).

Arguments Ok {A} a.
Arguments Err {A} e.

(** Modelled from the spec: a status transition (4.5) changes the status
    field alone. *)
Definition set_status (p : AccountingPeriod) (st : PeriodStatus) : AccountingPeriod :=
  {| status := st;
     opening_nav := opening_nav p;
     closing_nav := closing_nav p;
     reconciliation_diff := reconciliation_diff p;
     locked_at := locked_at p |}.

(** Modelled from the spec: [submit_for_review] (4.5), legal only from
    Draft, with no reconciliation precondition. *)
Definition submitForReview (s : Store) : Result Store :=
  match status (period s) with
  | draft =>
      Ok {| period := set_status (period s) review;
            opening_positions := opening_positions s;
            ledger := ledger s;
            snapshot := snapshot s;
            balances := balances s |}
  | review | closed => Err StateError
  end.

(** Modelled from the spec: the balance row mirrors the position (3). *)
Definition freeze (p : InvestorPosition) : InvestorBalance :=
  {| bal_investor_id := pos_investor_id p;
     bal_opening_balance := opening_balance p;
     bal_ownership_pct := ownership_pct p;
     bal_income_share := income_share p;
     bal_expense_share := expense_share p;
     bal_net_allocation := net_allocation p;
     bal_contributions := contributions p;
     bal_withdrawals := withdrawals p;
     bal_closing_balance := closing_balance p |}.

(** Modelled from the spec: [close] (4.5) with the Snapshot Builder (4.7).
    Legal only from Review and only when the checklist passes; a failed
    reconciliation is reported with its mismatch.  On success the final
    allocation is written as one snapshot and one balance row per position,
    the status becomes Closed and [locked_at] is stamped with [now].  The
    spec names no error for a checklist that fails on positions or entries
    alone; the model answers with the state error. *)
Definition closePeriod (now : Z) (s : Store) : Result (Store * NavSnapshot) :=
  let pv := previewPeriod s in
  let c := getCloseChecklist s in
  match status (period s) with
  | draft | closed => Err StateError
  | review =>
      if negb (reconciled (reconciliation pv)) then
        Err (ReconciliationMismatchError (mismatch (reconciliation pv)))
      else if negb (can_close c) then Err StateError
      else
        let snap :=
          {| snap_opening_nav := opening_nav (period s);
             snap_totals := aggregate (ledger s);
             snap_closing_nav := preview_closing_nav pv |} in
        Ok ({| period :=
                 {| status := closed;
                    opening_nav := opening_nav (period s);
                    closing_nav := preview_closing_nav pv;
                    reconciliation_diff := mismatch (reconciliation pv);
                    locked_at := Some now |};
               opening_positions := opening_positions s;
               ledger := ledger s;
               snapshot := Some snap;
               balances := map freeze (positions pv) |},
            snap)
  end.

(** Modelled from the spec: a ledger write, create, update or delete (3);
    an entry is named by its place in the ledger. *)
Inductive LedgerWrite :=
| CreateEntry (e : LedgerEntry)
| UpdateEntry (i : nat) (e : LedgerEntry)
| DeleteEntry (i : nat).

(** Modelled from the spec: the effect of a write on the entries (3);
    [None] when the place named holds no entry. *)
Definition apply_write (w : LedgerWrite) (l : list LedgerEntry) : option (list LedgerEntry) :=
  match w with
  | CreateEntry e => Some (l ++ [e])%list
  | UpdateEntry i e => if (i <? List.length l)%nat then Some (<[ i := e ]> l) else None
  | DeleteEntry i => if (i <? List.length l)%nat then Some (delete i l) else None
  end.

(** Modelled from the spec: a ledger write changes the entries alone (3). *)
Definition with_ledger (s : Store) (l : list LedgerEntry) : Store :=
  {| period := period s;
     opening_positions := opening_positions s;
     ledger := l;
     snapshot := snapshot s;
     balances := balances s |}.

(** Modelled from the spec: ledger writes by period status (3, 4.5).
    Entries are created and edited only while the period is Draft or
    Review and deleted only while it is Draft; every write to a Closed
    period fails with the state error.  Which entries an open period
    accepts is the caller's validation; the model accepts any. *)
Definition writeLedger (w : LedgerWrite) (s : Store) : Result Store :=
  match status (period s), w with
  | closed, _ => Err StateError
  | review, DeleteEntry _ => Err StateError
  | _, _ =>
      match apply_write w (ledger s) with
      | Some l => Ok (with_ledger s l)
      | None => Err NotFoundError
      end
  end.

(** Modelled from the spec: a period as it is created when a month is
    opened (3, 4.5): Draft, with no snapshot and no balance rows. *)
Definition initial (s : Store) : Prop :=
  status (period s) = draft /\ snapshot s = None /\ balances s = [].

(** Modelled from the spec: one successful operation on a period (4.5,
    6): a ledger write, a submission for review or a close. *)
Inductive step : Store -> Store -> Prop :=
| step_write (w : LedgerWrite) (s s' : Store) :
    writeLedger w s = Ok s' -> step s s'
| step_submit (s s' : Store) :
    submitForReview s = Ok s' -> step s s'
| step_close (now : Z) (s s' : Store) (snap : NavSnapshot) :
    closePeriod now s = Ok (s', snap) -> step s s'.

(** Modelled from the spec: the life of a period (4.5), any number of
    successful operations. *)
Inductive steps : Store -> Store -> Prop :=
| steps_refl (s : Store) : steps s s
| steps_step (s1 s2 s3 : Store) : steps s1 s2 -> step s2 s3 -> steps s1 s3.

(** What holds of a period at every moment of its life: an open period has
    no snapshot and no balance rows, and a Closed one has its snapshot, is
    locked, and its balance rows add up to the snapshot's closing NAV. *)
Definition consistent (s : Store) : Prop :=
  match status (period s) with
  | closed =>
      exists snap,
        snapshot s = Some snap
        /\ locked_at (period s) <> None
        /\ sum_money (map bal_closing_balance (balances s)) = snap_closing_nav snap
  | draft | review => snapshot s = None /\ balances s = []
  end.

Arguments compute_ownership_pct (opening_balance club_opening_nav)%_Z_scope.
Arguments compute_share (pct total)%_Z_scope.

(** Modelled from the spec: the period of [s] with other opening
    positions (6). *)
Definition with_opening_positions (s : Store) (ops : list (InvestorId * Money)) : Store :=
  {| period := period s;
     opening_positions := ops;
     ledger := ledger s;
     snapshot := snapshot s;
     balances := balances s |}.

End Engine.

(** ** Decimal amounts as JavaScript numbers *)

Module Decimal.

(** The binary64 value nearest to the decimal [m / 10^scale], that is, the
    number a decimal numeral with [scale] fraction digits denotes. *)
Definition to_number (m : Z) (scale : Z) : JS.number :=
  JS.roundDecimal (m <? 0) (Z.to_N (Z.abs m)) (- scale) (Z.succ (Z.log2 (Z.abs m))).

(** An amount of money (hundredths) as a number. *)
Definition of_money (m : Engine.Money) : JS.number := to_number m 2.

(** An ownership fraction (millionths) as a number. *)
Definition of_ownership (p : Engine.Ownership) : JS.number := to_number p 6.

Arguments to_number (m scale)%_Z_scope.
Arguments of_money m%_Z_scope.
Arguments of_ownership p%_Z_scope.

End Decimal.

(** ** Sample periods and form states *)

Module Samples.

Import Platform.

(** Whole currency units as money. *)
Definition ugx (whole : Z) : Engine.Money := whole * 100.

Definition entry (t : EntryType) (a : Engine.Money) (i : option Z) : Engine.LedgerEntry :=
  {| Engine.entry_type := t; Engine.amount := a; Engine.investor_id := i;
     Engine.tx_date := "2026-02-13" |}.

Definition open_period (st : PeriodStatus) (nav : Engine.Money) : Engine.AccountingPeriod :=
  {| Engine.status := st; Engine.opening_nav := nav; Engine.closing_nav := nav;
     Engine.reconciliation_diff := 0; Engine.locked_at := None |}.

Definition store (st : PeriodStatus) (nav : Engine.Money)
  (opening : list (Z * Engine.Money)) (l : list Engine.LedgerEntry) : Engine.Store :=
  {| Engine.period := open_period st nav;
     Engine.opening_positions := opening;
     Engine.ledger := l;
     Engine.snapshot := None;
     Engine.balances := [] |}.

(** One investor owning the whole club; income 500,000 and expenses 100,000. *)
Definition scenario_A : Engine.Store :=
  store review (ugx 10000000) [(1, ugx 10000000)]
        [entry income (ugx 500000) None; entry expense (ugx 100000) None].

(** Two investors at 60% and 40%; income 1,000,000. *)
Definition scenario_B : Engine.Store :=
  store review (ugx 10000000) [(1, ugx 6000000); (2, ugx 4000000)]
        [entry income (ugx 1000000) None].

(** Scenario B with a contribution of 500,000 by the first investor. *)
Definition scenario_C : Engine.Store :=
  store review (ugx 10000000) [(1, ugx 6000000); (2, ugx 4000000)]
        [entry income (ugx 1000000) None; entry contribution (ugx 500000) (Some 1)].

(** Scenario A before it is submitted for review. *)
Definition scenario_D : Engine.Store :=
  store draft (ugx 10000000) [(1, ugx 10000000)]
        [entry income (ugx 500000) None; entry expense (ugx 100000) None].

(** Scenario A with a stray adjustment of 5.00 on the investor. *)
Definition scenario_E : Engine.Store :=
  store review (ugx 10000000) [(1, ugx 10000000)]
        [entry income (ugx 500000) None; entry expense (ugx 100000) None;
         entry adjustment 500 (Some 1)].

(** Scenario D after a contribution of 250,000 by the investor, a
    submission for review and a close at time [1771000000]. *)
Definition scenario_D_closed : Engine.Store :=
  match Engine.writeLedger (Engine.CreateEntry (entry contribution (ugx 250000) (Some 1)))
                           scenario_D with
  | Engine.Ok s1 =>
      match Engine.submitForReview s1 with
      | Engine.Ok s2 =>
          match Engine.closePeriod 1771000000 s2 with
          | Engine.Ok (s3, _) => s3
          | Engine.Err _ => s2
          end
      | Engine.Err _ => s1
      end
  | Engine.Err _ => scenario_D
  end.

(** An investor with opening balance 100.00 and an adjustment of 5.00, in a
    club of opening NAV 100.00 with no income and no expenses. *)
Definition adjusted_position : Engine.InvestorPosition :=
  let l := [entry adjustment 500 (Some 1)] in
  Engine.allocate_investor 10000 (Engine.aggregate l) (Engine.aggregate_investors l) (1, 10000).

Definition summary (i : Z) (st : PeriodStatus) : PeriodSummary :=
  {| ps_id := i; ps_club_id := 1; ps_year := 2026; ps_month := 2; ps_status := st;
     ps_opening_nav := "10000000.00"; ps_closing_nav := "10400000.00";
     ps_reconciliation_diff := "0.00"; ps_locked_at := None |}.

(** A provider state with club 1 and period 7 selected, the period being in
    status [st]. *)
Definition provider (st : PeriodStatus) : PlatformContext.ProviderState :=
  {| PlatformContext.periods := [summary 7 st];
     PlatformContext.st_selectedClubId := Some 1;
     PlatformContext.st_selectedPeriodId := Some 7;
     PlatformContext.st_periodState := None;
     PlatformContext.st_checklist := None;
     PlatformContext.st_reconciliation := None |}.

Definition ledger_entry : LedgerEntry :=
  {| id := 42; le_club_id := 1; le_period_id := 7; investor_id := Some 3;
     entry_type := contribution; amount := "2500000.00"; category := "general";
     tx_date := "2026-02-13"; description := "February contribution";
     note := None; reference := None |}.

(** A form holding the given new entry, with [ledger_entry] open in the edit
    dialog and chosen for deletion. *)
Definition form (t : EntryType) (amount description investor : string) : LedgerView.State :=
  {| LedgerView.submitting := false;
     LedgerView.entryType := t;
     LedgerView.amount := amount;
     LedgerView.description := description;
     LedgerView.category := "general";
     LedgerView.txDate := "";
     LedgerView.note := "";
     LedgerView.reference := "";
     LedgerView.investorId := investor;
     LedgerView.editOpen := true;
     LedgerView.editingEntry := Some ledger_entry;
     LedgerView.editAmount := "2,600,000";
     LedgerView.editDescription := "February contribution (corrected)";
     LedgerView.editCategory := "general";
     LedgerView.editTxDate := "2026-02-13";
     LedgerView.editReference := "";
     LedgerView.editNote := "";
     LedgerView.deleteTarget := Some ledger_entry |}.

End Samples.

(** ** Predicates used to state the properties of strings *)

Module StringSpec.

(** Every character of [s] is white space. *)
Definition blank (s : string) : bool :=
  forallb JS.isWhiteSpace (list_ascii_of_string s).

Definition first_char (s : string) : option ascii :=
  match s with
  | EmptyString => None
  | String c _ => Some c
  end.

Fixpoint last_char (s : string) : option ascii :=
  match s with
  | EmptyString => None
  | String c EmptyString => Some c
  | String _ s' => last_char s'
  end.

Definition is_space (c : option ascii) : bool :=
  match c with
  | Some c => JS.isWhiteSpace c
  | None => false
  end.

(** [s] neither starts nor ends with white space. *)
Definition trimmed (s : string) : bool :=
  negb (is_space (first_char s)) && negb (is_space (last_char s)).

Definition is_comma (c : ascii) : bool := Ascii.eqb c ",".

End StringSpec.

(** ** More JavaScript built-ins *)

Module JSLib.

(** [s.padStart(targetLength, c)] for a one-character filler [c]. *)
Definition padStart (targetLength : nat) (c : ascii) (s : string) : string :=
  string_of_list_ascii (repeat c (targetLength - String.length s)) ++ s.

(** The decimal digits of [n], most significant first; [0] for zero. *)
Definition decimalDigits (n : N) : string := NilZero.string_of_uint (N.to_uint n).

(** The first [k] characters of [s], and the rest. *)
Fixpoint splitAt (k : nat) (s : string) : string * string :=
  match k, s with
  | O, _ => (EmptyString, s)
  | S k', String c s' => let (a, b) := splitAt k' s' in (String c a, b)
  | S _, EmptyString => (EmptyString, EmptyString)
  end.

(** For [x = m * 2^e > 0], the integer [n] for which [n / 10^f - x] is as
    close to zero as possible, the larger one when there are two. *)
Definition scaledNearest (m : positive) (e : Z) (f : nat) : N :=
  let num := Zpos m * 10 ^ Z.of_nat f in
  Z.to_N (if 0 <=? e then num * 2 ^ e
          else (2 * num + 2 ^ (- e)) / (2 * 2 ^ (- e))).

(** The digits of [n] with a decimal point before the last [f] of them,
    zeros added in front so that a digit stands before the point. *)
Definition fixedDigits (n : N) (f : nat) : string :=
  let m := decimalDigits n in
  match f with
  | O => m
  | S _ =>
      let m' := padStart (f + 1) "0" m in
      let (a, b) := splitAt (String.length m' - f) m' in
      a ++ "." ++ b
  end.

(** [m * 2^e >= 10^21]. *)
Definition atLeast1e21 (m : positive) (e : Z) : bool :=
  if 0 <=? e then 10 ^ 21 <=? Zpos m * 2 ^ e
  else 10 ^ 21 * 2 ^ (- e) <=? Zpos m.

(** [x.toFixed(fractionDigits)] (Number.prototype.toFixed) for
    [fractionDigits] from 0 to 100.  From 10^21 on the method writes the
    number as [String] does: [numberToString] stands for [String(x)] on
    numbers. *)
Definition toFixed (numberToString : JS.number -> string)
  (x : JS.number) (fractionDigits : nat) : string :=
  match Prim2SF x with
  | S754_nan => "NaN"
  | S754_infinity s => if s then "-Infinity" else "Infinity"
  | S754_zero _ => fixedDigits 0 fractionDigits
  | S754_finite s m e =>
      (if s then "-" else "")
      ++ (if atLeast1e21 m e then numberToString (abs x)
          else fixedDigits (scaledNearest m e fractionDigits) fractionDigits)
  end.

(** [x] is finite and below 10^21 in magnitude: the range in which
    [toFixed] writes decimal digits. *)
Definition inFixedRange (x : JS.number) : bool :=
  match Prim2SF x with
  | S754_zero _ => true
  | S754_finite _ m e => negb (atLeast1e21 m e)
  | _ => false
  end.

End JSLib.

(** ** lib/utils.ts: formatting *)

Module Format.

Local Open Scope float_scope.

Section WithNumberToString.

(** [String(x)] on numbers, which [toFixed] falls back to from 10^21 on. *)
Variable numberToString : JS.number -> string.

Definition toFixed := JSLib.toFixed numberToString.

(** [formatCurrency(value, currency)]; the source gives [currency] the
    default ['UGX']. *)
Definition formatCurrency (value : JS.number) (currency : string) : string :=
  if 1000000000 <=? value then
    currency ++ " " ++ toFixed (value / 1000000000) 2 ++ "B"
  else if 1000000 <=? value then
    currency ++ " " ++ toFixed (value / 1000000) 2 ++ "M"
  else if 1000 <=? value then
    currency ++ " " ++ toFixed (value / 1000) 2 ++ "K"
  else currency ++ " " ++ toFixed value 2.

(** [formatNumber(value)]. *)
Definition formatNumber (value : JS.number) : string :=
  if 1000000000 <=? value then toFixed (value / 1000000000) 2 ++ "B"
  else if 1000000 <=? value then toFixed (value / 1000000) 2 ++ "M"
  else if 1000 <=? value then toFixed (value / 1000) 2 ++ "K"
  else toFixed value 2.


End WithNumberToString.

End Format.

(** ** App.tsx: routes *)

Module App.

Import Platform.











(** The text of [selectedYearMonth] for a selected period,
    [`${year}${String(month).padStart(2, '0')}`]. *)
Definition yearMonth (period : PeriodSummary) : string :=
  LedgerView.String_of_id (ps_year period)
  ++ JSLib.padStart 2 "0" (LedgerView.String_of_id (ps_month period)).

End App.

(** ** context/PlatformContext.tsx: [refresh] *)

Module PlatformRefresh.

Import Platform PlatformContext.

Record ClubSummary := {
  club_id : Z;
  code : string;
  name : string;
  currency : string;
  is_active : bool
}.

(** How a request ends: the promise resolves with a value, or rejects with
    an error whose message is [message]. *)
Inductive Response (A : Type) :=
| Resolved (a : A)
| Failed (message : string).

Arguments Resolved {A} a.
Arguments Failed {A} message.

(** What [Promise.all] resolves with, for the cells modelled here. *)
Record PeriodData := {
  pd_state : PeriodState;
  pd_stamp : ReconciliationStamp;
  pd_checklist : CloseChecklist
}.

(** The answers of the API during one [refresh]: the club list, the period
    list of a club, and the outcome of the [Promise.all] over the requests
    for a period. *)
Record Server := {
  fetchClubs : Response (list ClubSummary);
  fetchPeriods : Z -> Response (list PeriodSummary);
  fetchPeriodData : Z -> Z -> Response PeriodData
}.

(** The provider's cells: the club list, the cells the views read, and the
    error. *)
Record State := {
  clubs : list ClubSummary;
  cells : ProviderState;
  error : option string
}.

(** [clubList[0]?.id ?? null]. *)
Definition firstClubId (clubList : list ClubSummary) : option Z :=
  match clubList with
  | club :: _ => Some (club_id club)
  | [] => None
  end.

(** [periodList[0]?.id ?? null]. *)
Definition firstPeriodId (periodList : list PeriodSummary) : option Z :=
  match periodList with
  | period :: _ => Some (ps_id period)
  | [] => None
  end.

(** [selectedClubId ? clubList.some((club) => club.id === selectedClubId) : false]. *)
Definition selectedClubExists (selected : option Z) (clubList : list ClubSummary) : bool :=
  match selected with
  | Some i => if i =? 0 then false else existsb (fun club => club_id club =? i) clubList
  | None => false
  end.

(** [selectedPeriodId ? periodList.some((period) => period.id === selectedPeriodId) : false]. *)
Definition selectedPeriodExists (selected : option Z) (periodList : list PeriodSummary) : bool :=
  match selected with
  | Some i => if i =? 0 then false else existsb (fun period => ps_id period =? i) periodList
  | None => false
  end.

(** The cells after the branch that clears the selection. *)
Definition cleared : ProviderState :=
  {| periods := [];
     st_selectedClubId := None;
     st_selectedPeriodId := None;
     st_periodState := None;
     st_checklist := None;
     st_reconciliation := None |}.

(** [refresh()]: the setters called up to the first rejected request stay in
    effect, and the [catch] sets the error. *)
Definition refresh (srv : Server) (st : State) : State :=
  let old := cells st in
  match fetchClubs srv with
  | Failed message => {| clubs := clubs st; cells := old; error := Some message |}
  | Resolved clubList =>
      let clubId :=
        if selectedClubExists (st_selectedClubId old) clubList
        then st_selectedClubId old else firstClubId clubList in
      match clubId with
      | None => {| clubs := clubList; cells := cleared; error := None |}
      | Some c =>
          if c =? 0 then {| clubs := clubList; cells := cleared; error := None |}
          else
            match fetchPeriods srv c with
            | Failed message =>
                {| clubs := clubList;
                   cells := {| periods := periods old;
                               st_selectedClubId := Some c;
                               st_selectedPeriodId := st_selectedPeriodId old;
                               st_periodState := st_periodState old;
                               st_checklist := st_checklist old;
                               st_reconciliation := st_reconciliation old |};
                   error := Some message |}
            | Resolved periodList =>
                let periodId :=
                  if selectedPeriodExists (st_selectedPeriodId old) periodList
                  then st_selectedPeriodId old else firstPeriodId periodList in
                let unloaded :=
                  {| periods := periodList;
                     st_selectedClubId := Some c;
                     st_selectedPeriodId := periodId;
                     st_periodState := None;
                     st_checklist := None;
                     st_reconciliation := None |} in
                match periodId with
                | None => {| clubs := clubList; cells := unloaded; error := None |}
                | Some p =>
                    if p =? 0 then {| clubs := clubList; cells := unloaded; error := None |}
                    else
                      match fetchPeriodData srv c p with
                      | Failed message =>
                          {| clubs := clubList;
                             cells := {| periods := periodList;
                                         st_selectedClubId := Some c;
                                         st_selectedPeriodId := Some p;
                                         st_periodState := st_periodState old;
                                         st_checklist := st_checklist old;
                                         st_reconciliation := st_reconciliation old |};
                             error := Some message |}
                      | Resolved data =>
                          {| clubs := clubList;
                             cells := {| periods := periodList;
                                         st_selectedClubId := Some c;
                                         st_selectedPeriodId := Some p;
                                         st_periodState := Some (pd_state data);
                                         st_checklist := Some (pd_checklist data);
                                         st_reconciliation := Some (pd_stamp data) |};
                             error := None |}
                      end
                end
            end
      end
  end.

(** [setSelectedClubId(clubId)]: the club is set and the period cleared. *)
Definition setSelectedClubId (clubId : Z) (st : State) : State :=
  {| clubs := clubs st;
     cells := {| periods := periods (cells st);
                 st_selectedClubId := Some clubId;
                 st_selectedPeriodId := None;
                 st_periodState := st_periodState (cells st);
                 st_checklist := st_checklist (cells st);
                 st_reconciliation := st_reconciliation (cells st) |};
     error := error st |}.

(** [setSelectedPeriodId(periodId)]. *)
Definition setSelectedPeriodId (periodId : Z) (st : State) : State :=
  {| clubs := clubs st;
     cells := {| periods := periods (cells st);
                 st_selectedClubId := st_selectedClubId (cells st);
                 st_selectedPeriodId := Some periodId;
                 st_periodState := st_periodState (cells st);
                 st_checklist := st_checklist (cells st);
                 st_reconciliation := st_reconciliation (cells st) |};
     error := error st |}.

End PlatformRefresh.

(** ** Predicates used to state the properties of routes *)

Module RouteSpec.

Definition allDigits (s : string) : bool :=
  forallb JS.isDecimalDigit (list_ascii_of_string s).

(** Six decimal digits, as a year and month are written. *)
Definition sixDigits (s : string) : bool :=
  Nat.eqb (String.length s) 6 && allDigits s.


End RouteSpec.

(** * Properties *)

(** ** Strings *)

Section StringFacts.

Import StringSpec.

Lemma replaceAll_comma_filter (s : string) :
  list_ascii_of_string (JS.replaceAll "," "" s)
  = filter (fun c => negb (is_comma c)) (list_ascii_of_string s).
Proof.
  induction s as [|c s IH]; [reflexivity|].
  cbn [JS.replaceAll list_ascii_of_string filter]. unfold is_comma at 1.
  destruct (Ascii.eqb c ",").
  - change ("" ++ JS.replaceAll "," "" s) with (JS.replaceAll "," "" s).
    exact IH.
  - cbn [negb list_ascii_of_string]. now rewrite IH.
Qed.

Lemma append_nil_l (s : string) : "" ++ s = s.
Proof. reflexivity. Qed.

Lemma append_cons (c : ascii) (s t : string) : String c s ++ t = String c (s ++ t).
Proof. reflexivity. Qed.

Lemma blank_cons (c : ascii) (s : string) :
  blank (String c s) = JS.isWhiteSpace c && blank s.
Proof. reflexivity. Qed.

Lemma trimStart_spec (s : string) :
  exists pre, s = pre ++ JS.trimStart s
              /\ blank pre = true
              /\ is_space (first_char (JS.trimStart s)) = false.
Proof.
  induction s as [|c s (pre & E & B & F)].
  - exists "". repeat split.
  - cbn [JS.trimStart]. destruct (JS.isWhiteSpace c) eqn:W.
    + exists (String c pre). rewrite append_cons, <- E, blank_cons, W, B.
      repeat split. exact F.
    + exists "". rewrite append_nil_l. repeat split. exact W.
Qed.

Lemma last_char_cons (c : ascii) (s : string) :
  s <> "" -> last_char (String c s) = last_char s.
Proof. destruct s; [congruence | reflexivity]. Qed.

Lemma trimEnd_spec (s : string) :
  exists post, s = JS.trimEnd s ++ post
               /\ blank post = true
               /\ is_space (last_char (JS.trimEnd s)) = false.
Proof.
  induction s as [|c s (post & E & B & L)].
  - exists "". repeat split.
  - cbn [JS.trimEnd]. destruct (JS.trimEnd s) as [|d t] eqn:T.
    + rewrite append_nil_l in E. subst post. destruct (JS.isWhiteSpace c) eqn:W.
      * exists (String c s). rewrite append_nil_l, blank_cons, W, B.
        repeat split.
      * exists s. rewrite !append_cons, append_nil_l.
        repeat split; [exact B | exact W].
    + exists post. rewrite append_cons, <- E.
      repeat split; [exact B|].
      rewrite last_char_cons by discriminate. exact L.
Qed.

Lemma trimEnd_keeps_first (s : string) :
  is_space (first_char s) = false ->
  is_space (first_char (JS.trimEnd s)) = false.
Proof.
  destruct s as [|c s]; simpl; [auto|].
  intros W. destruct (JS.trimEnd s); [rewrite W|]; simpl; auto.
Qed.

Lemma trim_spec (s : string) :
  exists pre post, s = pre ++ JS.trim s ++ post
                   /\ blank pre = true /\ blank post = true
                   /\ trimmed (JS.trim s) = true.
Proof.
  destruct (trimStart_spec s) as (pre & E & B & F).
  destruct (trimEnd_spec (JS.trimStart s)) as (post & E' & B' & L).
  exists pre, post. unfold JS.trim, trimmed. repeat split; auto.
  - now rewrite <- E', <- E.
  - rewrite L, (trimEnd_keeps_first _ F). reflexivity.
Qed.

Lemma not_string_true (s : string) : JS.not_string s = true <-> s = "".
Proof. destruct s; simpl; split; congruence. Qed.

End StringFacts.

(** ** Numbers *)

Section NumberFacts.

Local Open Scope float_scope.

(** [x <= y] holds only if [x === y] or [x < y]. *)
Lemma leb_eqb_or_ltb (x y : float) :
  (x <=? y) = true -> (x =? y) = true \/ (x <? y) = true.
Proof.
  rewrite leb_spec, eqb_spec, ltb_spec.
  unfold SFleb, SFeqb, SFltb.
  destruct (SFcompare (Prim2SF x) (Prim2SF y)) as [[]|]; auto; discriminate.
Qed.

(** Two numbers with different decompositions are different. *)
Lemma Prim2SF_neq (x y : float) : Prim2SF x <> Prim2SF y -> x <> y.
Proof. intros H E. apply H. now rewrite E. Qed.

End NumberFacts.

(** ** lib/feedback.ts *)

Section FeedbackFacts.

Import StringSpec.

Lemma parseMoneyInput_None (raw : string) :
  Feedback.parseMoneyInput raw = None
  <-> raw = ""
      \/ JS.trim (JS.replaceAll "," "" raw) = ""
      \/ JS.isFinite (JS.Number (JS.trim (JS.replaceAll "," "" raw))) = false.
Proof.
  unfold Feedback.parseMoneyInput.
  destruct (JS.not_string raw) eqn:R.
  { apply not_string_true in R. tauto. }
  destruct (JS.not_string (JS.trim (JS.replaceAll "," "" raw))) eqn:N.
  { apply not_string_true in N. tauto. }
  assert (raw <> "") by (intros ->; discriminate).
  assert (JS.trim (JS.replaceAll "," "" raw) <> "") by (intros E; rewrite E in N; discriminate).
  destruct (JS.isFinite _) eqn:F; simpl; split; try tauto; try discriminate.
  intros [?|[?|?]]; congruence.
Qed.

Lemma parseMoneyInput_Some (raw : string) (v : JS.number) :
  Feedback.parseMoneyInput raw = Some v ->
  v = JS.Number (JS.trim (JS.replaceAll "," "" raw)) /\ JS.isFinite v = true.
Proof.
  unfold Feedback.parseMoneyInput.
  destruct (JS.not_string raw); [discriminate|].
  destruct (JS.not_string _); [discriminate|].
  destruct (JS.isFinite _) eqn:F; simpl; [|discriminate].
  intros [= <-]. auto.
Qed.

(** C10.  [parseMoneyInput] removes every comma (and nothing else) from its
    input and strips the white space at both ends; it returns [null] exactly
    when the input is empty, the normalized string is empty, or the
    normalized string does not convert to a finite number; otherwise it
    returns the number the normalized string converts to.  The input
    [2,500,000] yields 2500000. *)
Theorem parseMoneyInput_characterised : forall raw : string,
  let stripped := JS.replaceAll "," "" raw in
  let normalized := JS.trim stripped in
  list_ascii_of_string stripped
    = filter (fun c => negb (is_comma c)) (list_ascii_of_string raw)
  /\ (exists pre post, stripped = pre ++ normalized ++ post
                       /\ blank pre = true /\ blank post = true
                       /\ trimmed normalized = true)
  /\ (Feedback.parseMoneyInput raw = None
      <-> raw = "" \/ normalized = "" \/ JS.isFinite (JS.Number normalized) = false)
  /\ (Feedback.parseMoneyInput raw <> None ->
      Feedback.parseMoneyInput raw = Some (JS.Number normalized))
  /\ Feedback.parseMoneyInput "2,500,000" = Some 2500000%float.
Proof.
  intros raw stripped normalized. repeat split.
  - apply replaceAll_comma_filter.
  - apply trim_spec.
  - apply parseMoneyInput_None.
  - apply parseMoneyInput_None.
  - intros NN. destruct (Feedback.parseMoneyInput raw) as [v|] eqn:P; [|congruence].
    apply parseMoneyInput_Some in P as [-> _]. reflexivity.
Qed.

Example parseMoneyInput_examples :
  Feedback.parseMoneyInput " 1,234.50 " = Some 1234.5%float
  /\ Feedback.parseMoneyInput "-750" = Some (-750)%float
  /\ Feedback.parseMoneyInput "" = None
  /\ Feedback.parseMoneyInput " , " = None
  /\ Feedback.parseMoneyInput "12 500" = None
  /\ Feedback.parseMoneyInput "UGX 500" = None
  /\ Feedback.parseMoneyInput "Infinity" = None
  /\ Feedback.parseMoneyInput "1e999" = None.
Proof. repeat split; reflexivity. Qed.

End FeedbackFacts.

(** ** views/LedgerView.tsx: validation *)

Section ValidationFacts.

Import Platform LedgerView.

Local Open Scope float_scope.

Lemma validateEntryInput_zero (amountInput descInput inv : string) (type : EntryType) (v : JS.number) :
  Feedback.parseMoneyInput amountInput = Some v ->
  JS.strict_eq v 0 = true ->
  validateEntryInput amountInput descInput inv type
  = Invalid "Amount cannot be zero. Use a value like 1500000.".
Proof.
  intros P Z. unfold validateEntryInput. now rewrite P, Z.
Qed.

Lemma validateEntryInput_negative (amountInput descInput inv : string) (type : EntryType) (v : JS.number) :
  Feedback.parseMoneyInput amountInput = Some v ->
  type <> adjustment ->
  JS.lt v 0 = true ->
  exists m, validateEntryInput amountInput descInput inv type = Invalid m.
Proof.
  intros P T L. unfold validateEntryInput. rewrite P.
  destruct (JS.strict_eq v 0); [eauto|].
  rewrite L. destruct type; try congruence; simpl; eauto.
Qed.

Lemma validateEntryInput_short (amountInput descInput inv : string) (type : EntryType) :
  (JS.length (JS.trim descInput) < 3)%nat ->
  exists m, validateEntryInput amountInput descInput inv type = Invalid m.
Proof.
  intros L. unfold validateEntryInput.
  destruct (Feedback.parseMoneyInput amountInput) as [v|]; [|eauto].
  destruct (JS.strict_eq v 0); [eauto|].
  destruct (negb (EntryType_eqb type adjustment) && JS.lt v 0); [eauto|].
  apply Nat.ltb_lt in L. rewrite L. eauto.
Qed.

Lemma validateEntryInput_no_investor (amountInput descInput : string) (type : EntryType) :
  type = contribution \/ type = withdrawal \/ type = adjustment ->
  exists m, validateEntryInput amountInput descInput "" type = Invalid m.
Proof.
  intros T. unfold validateEntryInput.
  destruct (Feedback.parseMoneyInput amountInput) as [v|]; [|eauto].
  destruct (JS.strict_eq v 0); [eauto|].
  destruct (negb (EntryType_eqb type adjustment) && JS.lt v 0); [eauto|].
  destruct (JS.length (JS.trim descInput) <? 3)%nat; [eauto|].
  destruct T as [->|[->| ->]]; simpl; eauto.
Qed.

Lemma validateEntryInput_Valid (amountInput descInput inv : string) (type : EntryType)
  (a : JS.number) (d : string) :
  validateEntryInput amountInput descInput inv type = Valid a d ->
  Feedback.parseMoneyInput amountInput = Some a
  /\ d = JS.trim descInput
  /\ JS.strict_eq a 0 = false
  /\ (type <> adjustment -> JS.lt a 0 = false)
  /\ (3 <= JS.length d)%nat
  /\ (type = contribution \/ type = withdrawal \/ type = adjustment -> inv <> "").
Proof.
  unfold validateEntryInput.
  destruct (Feedback.parseMoneyInput amountInput) as [v|]; [|discriminate].
  destruct (JS.strict_eq v 0) eqn:Z; [discriminate|].
  destruct (negb (EntryType_eqb type adjustment) && JS.lt v 0) eqn:N; [discriminate|].
  destruct (JS.length (JS.trim descInput) <? 3)%nat eqn:L; [discriminate|].
  destruct ((EntryType_eqb type contribution || EntryType_eqb type withdrawal
             || EntryType_eqb type adjustment) && JS.not_string inv) eqn:I; [discriminate|].
  intros [= <- <-]. apply Nat.ltb_ge in L.
  repeat split; auto.
  - intros T. destruct type; try congruence; simpl in N; exact N.
  - intros T ->. destruct T as [->|[->| ->]]; discriminate.
Qed.

(** C9.  Whatever the entry type, adjustment included, validation rejects
    an amount that parses to zero and rejects a description whose trimmed
    length is below 3; an input that passes is returned with the trimmed
    description and with the amount [parseMoneyInput] reads, which is the
    number denoted by the comma-stripped, trimmed amount text. *)
Theorem validateEntryInput_zero_description_result :
  forall (amountInput descInput selectedInvestorId : string) (type : EntryType),
  let result := validateEntryInput amountInput descInput selectedInvestorId type in
  (forall v, Feedback.parseMoneyInput amountInput = Some v ->
             JS.strict_eq v 0 = true ->
             result = Invalid "Amount cannot be zero. Use a value like 1500000.")
  /\ ((JS.length (JS.trim descInput) < 3)%nat -> exists m, result = Invalid m)
  /\ (forall a d, result = Valid a d ->
        d = JS.trim descInput
        /\ Feedback.parseMoneyInput amountInput = Some a
        /\ a = JS.Number (JS.trim (JS.replaceAll "," "" amountInput))).
Proof.
  intros amountInput descInput inv type result. split; [|split].
  - intros v P Z. now apply validateEntryInput_zero with (v := v).
  - apply validateEntryInput_short.
  - intros a d V. apply validateEntryInput_Valid in V as (P & D & _).
    repeat split; auto.
    now apply parseMoneyInput_Some in P.
Qed.

Example validateEntryInput_examples :
  validateEntryInput "0" "Opening correction" "3" adjustment
  = Invalid "Amount cannot be zero. Use a value like 1500000."
  /\ validateEntryInput "-0.00" "Opening correction" "3" adjustment
     = Invalid "Amount cannot be zero. Use a value like 1500000."
  /\ validateEntryInput "1,000" " ok " "3" adjustment
     = Invalid ("Description is required (at least 3 characters). Example: "
                ++ JS.dquote ++ "Monthly management fee" ++ JS.dquote ++ ".")
  /\ validateEntryInput "-1,000" "Fee reversal" "3" adjustment = Valid (-1000) "Fee reversal"
  /\ validateEntryInput "-1,000" "Fee reversal" "" expense
     = Invalid "expense must be positive. Use adjustment for negative correction values."
  /\ validateEntryInput " 2,500,000 " "  Monthly portfolio income " "" income
     = Valid 2500000 "Monthly portfolio income"
  /\ validateEntryInput "2,500,000" "February contribution" "" contribution
     = Invalid "Select an investor for contribution entries so allocations remain auditable.".
Proof. repeat split; reflexivity. Qed.

Lemma handleSubmit_Sent (ctx : PlatformContext.Value) (s : State) (r : Api.Request) :
  handleSubmit ctx s = Sent r ->
  PlatformContext.locked ctx = false
  /\ exists a d, validateEntryInput (amount s) (description s)
                                    (investorId s) (entryType s) = Valid a d.
Proof.
  unfold handleSubmit.
  destruct (PlatformContext.selectedClubId ctx) as [c|]; [|discriminate].
  destruct (PlatformContext.selectedPeriodId ctx) as [p|]; [|discriminate].
  destruct (PlatformContext.locked ctx); [rewrite orb_true_r; discriminate|].
  destruct ((c =? 0)%Z || (p =? 0)%Z || false); [discriminate|].
  destruct (validateEntryInput _ _ _ _) as [a d|m]; [eauto | discriminate].
Qed.

Lemma handleUpdateEntry_Sent_valid (ctx : PlatformContext.Value) (s : State) (r : Api.Request) :
  handleUpdateEntry ctx s = Sent r ->
  exists entry a d,
    editingEntry s = Some entry
    /\ validateEntryInput (editAmount s) (editDescription s)
                          (editInvestorId entry) (entry_type entry) = Valid a d.
Proof.
  unfold handleUpdateEntry.
  destruct (PlatformContext.selectedClubId ctx) as [c|]; [|discriminate].
  destruct (PlatformContext.selectedPeriodId ctx) as [p|]; [|discriminate].
  destruct (editingEntry s) as [e|]; [|discriminate].
  destruct ((c =? 0)%Z || (p =? 0)%Z || PlatformContext.locked ctx); [discriminate|].
  destruct (PeriodStatus_eqb (PlatformContext.ctx_status ctx) closed); [discriminate|].
  destruct (validateEntryInput _ _ _ _) as [a d|m] eqn:V; [|discriminate].
  intros _. exists e, a, d. auto.
Qed.

(** C8.  An entry whose type is not adjustment and whose amount is zero or
    negative, or whose type is contribution, withdrawal or adjustment and
    which has no investor selected, fails validation; the Post Entry handler
    sends no create request for a form holding it, and the Save handler of
    the edit dialog sends no update request for it. *)
Theorem invalid_entry_is_not_posted :
  forall (amountInput descInput selectedInvestorId : string) (type : EntryType),
  (type <> adjustment
   /\ exists v, Feedback.parseMoneyInput amountInput = Some v /\ (v <=? 0) = true)
  \/ ((type = contribution \/ type = withdrawal \/ type = adjustment)
      /\ selectedInvestorId = "") ->
  (exists m, validateEntryInput amountInput descInput selectedInvestorId type = Invalid m)
  /\ (forall ctx s,
        amount s = amountInput -> description s = descInput ->
        investorId s = selectedInvestorId -> entryType s = type ->
        forall r, handleSubmit ctx s <> Sent r)
  /\ (forall ctx s entry,
        editingEntry s = Some entry ->
        editAmount s = amountInput -> editDescription s = descInput ->
        editInvestorId entry = selectedInvestorId -> entry_type entry = type ->
        forall r, handleUpdateEntry ctx s <> Sent r).
Proof.
  intros amountInput descInput inv type Bad.
  assert (V : exists m, validateEntryInput amountInput descInput inv type = Invalid m).
  { destruct Bad as [(T & v & P & L) | (T & I)].
    - destruct (leb_eqb_or_ltb _ _ L) as [Z|N].
      + rewrite (validateEntryInput_zero _ _ _ _ v P Z). eauto.
      + now apply validateEntryInput_negative with (v := v).
    - rewrite I. now apply validateEntryInput_no_investor. }
  destruct V as (m & V).
  split; [eauto|]. split.
  - intros ctx s <- <- <- <- r S.
    apply handleSubmit_Sent in S as (_ & a & d & E). congruence.
  - intros ctx s entry Ed <- <- <- <- r S.
    apply handleUpdateEntry_Sent_valid in S as (e & a & d & Ed' & E).
    rewrite Ed in Ed'. injection Ed' as <-. congruence.
Qed.

(** C8 at a form holding an expense of -5,000 with no investor. *)
Lemma invalid_entry_is_not_posted_witness :
  (exists m, validateEntryInput "-5,000" "Bank charges" "" expense = Invalid m)
  /\ (forall ctx s,
        amount s = "-5,000" -> description s = "Bank charges" ->
        investorId s = "" -> entryType s = expense ->
        forall r, handleSubmit ctx s <> Sent r)
  /\ (forall ctx s entry,
        editingEntry s = Some entry ->
        editAmount s = "-5,000" -> editDescription s = "Bank charges" ->
        editInvestorId entry = "" -> entry_type entry = expense ->
        forall r, handleUpdateEntry ctx s <> Sent r).
Proof.
  apply invalid_entry_is_not_posted.
  left. split; [discriminate|].
  exists (-5000). split; reflexivity.
Defined.

(** A negative expense is rejected on both paths, with the message of the
    sign check. *)
Example negative_expense_is_rejected :
  let ctx := PlatformContext.usePlatform (Samples.provider draft) in
  handleSubmit ctx (Samples.form expense "-5,000" "Bank charges" "")
  = Rejected "expense must be positive. Use adjustment for negative correction values."
  /\ handleSubmit ctx (Samples.form withdrawal "5,000" "Partial exit" "")
     = Rejected "Select an investor for withdrawal entries so allocations remain auditable."
  /\ handleSubmit ctx (Samples.form contribution "0" "Top up" "3")
     = Rejected "Amount cannot be zero. Use a value like 1500000.".
Proof. repeat split; reflexivity. Qed.

End ValidationFacts.

(** ** views/LedgerView.tsx: the period status guards *)

Section LockFacts.

Import Platform PlatformContext LedgerView.

Lemma PeriodStatus_eqb_eq (a b : PeriodStatus) : PeriodStatus_eqb a b = true <-> a = b.
Proof. destruct a, b; simpl; split; congruence. Qed.

(** A context built by the provider is locked whenever its status is closed. *)
Lemma closed_is_locked (st : ProviderState) :
  ctx_status (usePlatform st) = closed -> locked (usePlatform st) = true.
Proof.
  unfold usePlatform; simpl. unfold computeStatus, computeLocked.
  destruct (findSelectedPeriod st) as [p|].
  - intros ->. reflexivity.
  - destruct (st_periodState st) as [q|]; [|discriminate].
    intros ->. reflexivity.
Qed.

Lemma canEditEntries_iff (status : PeriodStatus) :
  canEditEntries status = true <-> status = draft \/ status = review.
Proof.
  destruct status; simpl; split; auto; try discriminate; intros [H|H]; discriminate.
Qed.

Lemma canDeleteEntries_iff (status : PeriodStatus) :
  canDeleteEntries status = true <-> status = draft.
Proof. destruct status; simpl; split; congruence. Qed.

Lemma handleUpdateEntry_Sent (ctx : Value) (s : State) (r : Api.Request) :
  handleUpdateEntry ctx s = Sent r ->
  locked ctx = false /\ ctx_status ctx <> closed.
Proof.
  unfold handleUpdateEntry.
  destruct (selectedClubId ctx) as [c|]; [|discriminate].
  destruct (selectedPeriodId ctx) as [p|]; [|discriminate].
  destruct (editingEntry s) as [e|]; [|discriminate].
  destruct (locked ctx); [rewrite orb_true_r; discriminate|].
  destruct ((c =? 0) || (p =? 0) || false); [discriminate|].
  destruct (ctx_status ctx); simpl; try discriminate; intros _; split; congruence.
Qed.

Lemma handleDeleteEntry_Sent (ctx : Value) (s : State) (r : Api.Request) :
  handleDeleteEntry ctx s = Sent r ->
  locked ctx = false /\ ctx_status ctx = draft.
Proof.
  unfold handleDeleteEntry.
  destruct (selectedClubId ctx) as [c|]; [|discriminate].
  destruct (selectedPeriodId ctx) as [p|]; [|discriminate].
  destruct (deleteTarget s) as [e|]; [|discriminate].
  destruct (locked ctx); [rewrite orb_true_r; discriminate|].
  destruct (ctx_status ctx); simpl; try (rewrite orb_true_r; discriminate).
  auto.
Qed.

Lemma locked_handlers_ignore (ctx : Value) (s : State) :
  locked ctx = true ->
  handleSubmit ctx s = Ignored
  /\ handleUpdateEntry ctx s = Ignored
  /\ handleDeleteEntry ctx s = Ignored.
Proof.
  intros L. unfold handleSubmit, handleUpdateEntry, handleDeleteEntry. rewrite L.
  destruct (selectedClubId ctx), (selectedPeriodId ctx), (editingEntry s), (deleteTarget s);
    rewrite ?orb_true_r; simpl; auto.
Qed.

(** C7.  In a view fed by the platform provider, the row actions allow
    editing exactly in status draft or review and deleting exactly in
    status draft; an update request is sent only in draft or review, a
    delete request only in draft, and the edit dialog opens only in draft
    or review; and when the status is closed the create,
    update and delete handlers all return without a request, the edit
    dialog does not open and the three buttons are disabled. *)
Theorem ledger_entries_mutable_only_while_open :
  forall (st : ProviderState) (s : State),
  let ctx := usePlatform st in
  (canEditEntries (ctx_status ctx) = true
   <-> ctx_status ctx = draft \/ ctx_status ctx = review)
  /\ (canDeleteEntries (ctx_status ctx) = true <-> ctx_status ctx = draft)
  /\ (forall r, handleUpdateEntry ctx s = Sent r ->
                ctx_status ctx = draft \/ ctx_status ctx = review)
  /\ (forall r, handleDeleteEntry ctx s = Sent r -> ctx_status ctx = draft)
  /\ (forall numberToString entry,
        openEdit numberToString ctx s entry <> s ->
        ctx_status ctx = draft \/ ctx_status ctx = review)
  /\ (ctx_status ctx = closed ->
      handleSubmit ctx s = Ignored
      /\ handleUpdateEntry ctx s = Ignored
      /\ handleDeleteEntry ctx s = Ignored
      /\ (forall numberToString entry, openEdit numberToString ctx s entry = s)
      /\ postEntryDisabled ctx s = true
      /\ editButtonDisabled ctx s = true
      /\ deleteButtonDisabled ctx s = true).
Proof.
  intros st s ctx.
  split; [apply canEditEntries_iff|].
  split; [apply canDeleteEntries_iff|].
  split.
  { intros r S. apply handleUpdateEntry_Sent in S as [_ N].
    destruct (ctx_status ctx); auto; congruence. }
  split.
  { intros r S. now apply handleDeleteEntry_Sent in S. }
  split.
  { intros f e N. apply canEditEntries_iff. unfold openEdit in N.
    destruct (canEditEntries (ctx_status ctx)); [reflexivity|].
    simpl in N. congruence. }
  intros C. pose proof (closed_is_locked st C) as L. fold ctx in L.
  destruct (locked_handlers_ignore ctx s L) as (S1 & S2 & S3).
  repeat split; auto.
  - intros f e. unfold openEdit. now rewrite L, orb_true_r.
  - unfold postEntryDisabled. now rewrite L.
  - unfold editButtonDisabled. now rewrite L, orb_true_r.
  - unfold deleteButtonDisabled. now rewrite L, orb_true_r.
Qed.

(** The guards are not vacuous: an update goes out in draft and in review,
    a delete goes out in draft only, and nothing goes out once closed. *)
Example ledger_guards_by_status :
  let s := Samples.form contribution "2,500,000" "February contribution" "3" in
  let ctx st := usePlatform (Samples.provider st) in
  (exists r, handleSubmit (ctx draft) s = Sent r)
  /\ (exists r, handleUpdateEntry (ctx draft) s = Sent r)
  /\ (exists r, handleDeleteEntry (ctx draft) s = Sent r)
  /\ (exists r, handleSubmit (ctx review) s = Sent r)
  /\ (exists r, handleUpdateEntry (ctx review) s = Sent r)
  /\ handleDeleteEntry (ctx review) s = Ignored
  /\ handleSubmit (ctx closed) s = Ignored
  /\ handleUpdateEntry (ctx closed) s = Ignored
  /\ handleDeleteEntry (ctx closed) s = Ignored.
Proof. cbv zeta. repeat split; try (eexists; reflexivity); reflexivity. Qed.

End LockFacts.

(** ** The accounting engine and views/CloseMonthView.tsx *)

Section EngineFacts.

Import Platform.

Lemma sum_frozen (ps : list Engine.InvestorPosition) :
  Engine.sum_money (map Engine.bal_closing_balance (map Engine.freeze ps))
  = Engine.sum_money (map Engine.closing_balance ps).
Proof. rewrite map_map. reflexivity. Qed.

Lemma reconciled_exact (nav : Engine.Money) (ps : list Engine.InvestorPosition) :
  Engine.reconciled (Engine.reconcile nav ps) = true
  <-> Engine.sum_money (map Engine.closing_balance ps) = nav.
Proof. unfold Engine.reconcile; simpl. rewrite Z.eqb_eq. lia. Qed.

Lemma closePeriod_Ok (now : Z) (s s' : Engine.Store) (snap : Engine.NavSnapshot) :
  Engine.closePeriod now s = Engine.Ok (s', snap) ->
  Engine.status (Engine.period s) = review
  /\ Engine.reconciled (Engine.reconciliation (Engine.previewPeriod s)) = true
  /\ Engine.can_close (Engine.getCloseChecklist s) = true
  /\ snap = {| Engine.snap_opening_nav := Engine.opening_nav (Engine.period s);
               Engine.snap_totals := Engine.aggregate (Engine.ledger s);
               Engine.snap_closing_nav :=
                 Engine.preview_closing_nav (Engine.previewPeriod s) |}
  /\ Engine.status (Engine.period s') = closed
  /\ Engine.locked_at (Engine.period s') = Some now
  /\ Engine.snapshot s' = Some snap
  /\ Engine.balances s' = map Engine.freeze (Engine.positions (Engine.previewPeriod s))
  /\ Engine.ledger s' = Engine.ledger s.
Proof.
  unfold Engine.closePeriod.
  destruct (Engine.status (Engine.period s)); try discriminate.
  destruct (Engine.reconciled _) eqn:R; [|discriminate].
  destruct (Engine.can_close _) eqn:C; [|discriminate].
  simpl. intros [= <- <-]. simpl. repeat split.
Qed.

(** A successful close writes rows that add up to the snapshot's closing
    NAV. *)
Lemma close_reconciles (now : Z) (s s' : Engine.Store) (snap : Engine.NavSnapshot) :
  Engine.closePeriod now s = Engine.Ok (s', snap) ->
  Engine.status (Engine.period s') = closed
  /\ Engine.snapshot s' = Some snap
  /\ Engine.locked_at (Engine.period s') = Some now
  /\ List.length (Engine.balances s')
     = List.length (Engine.positions (Engine.previewPeriod s))
  /\ Engine.sum_money (map Engine.bal_closing_balance (Engine.balances s'))
     = Engine.snap_closing_nav snap.
Proof.
  intros H.
  apply closePeriod_Ok in H as (_ & R & _ & -> & C & L & S & B & _).
  rewrite B, sum_frozen, length_map. simpl.
  repeat split; auto.
  now apply reconciled_exact.
Qed.

Lemma writeLedger_Ok (w : Engine.LedgerWrite) (s s' : Engine.Store) :
  Engine.writeLedger w s = Engine.Ok s' ->
  Engine.status (Engine.period s) <> closed
  /\ Engine.period s' = Engine.period s
  /\ Engine.snapshot s' = Engine.snapshot s
  /\ Engine.balances s' = Engine.balances s.
Proof.
  unfold Engine.writeLedger.
  destruct (Engine.status (Engine.period s)) eqn:St, w;
    try discriminate;
    destruct (Engine.apply_write _ _); try discriminate;
    intros [= <-]; repeat split; discriminate.
Qed.

(** Every write to the ledger of a Closed period fails with the state error. *)
Lemma writeLedger_closed (w : Engine.LedgerWrite) (s : Engine.Store) :
  Engine.status (Engine.period s) = closed ->
  Engine.writeLedger w s = Engine.Err Engine.StateError.
Proof. unfold Engine.writeLedger. intros ->. reflexivity. Qed.

Lemma submitForReview_Ok (s s' : Engine.Store) :
  Engine.submitForReview s = Engine.Ok s' ->
  Engine.status (Engine.period s) = draft
  /\ Engine.status (Engine.period s') = review
  /\ Engine.snapshot s' = Engine.snapshot s
  /\ Engine.balances s' = Engine.balances s.
Proof.
  unfold Engine.submitForReview.
  destruct (Engine.status (Engine.period s)); try discriminate.
  intros [= <-]. repeat split.
Qed.

Lemma step_consistent (s s' : Engine.Store) :
  Engine.step s s' -> Engine.consistent s -> Engine.consistent s'.
Proof.
  intros [w s1 s2 W | s1 s2 S | now s1 s2 snap C] I.
  - apply writeLedger_Ok in W as (N & P & Sn & B).
    unfold Engine.consistent in *. rewrite P, Sn, B.
    destruct (Engine.status (Engine.period s1)); [exact I | exact I | congruence].
  - apply submitForReview_Ok in S as (D & R & Sn & B).
    unfold Engine.consistent in *. rewrite D in I. rewrite R, Sn, B. exact I.
  - apply close_reconciles in C as (St & Sn & L & _ & Sum).
    unfold Engine.consistent. rewrite St.
    exists snap. repeat split; auto. rewrite L. discriminate.
Qed.

Lemma steps_consistent (s0 s : Engine.Store) :
  Engine.steps s0 s -> Engine.consistent s0 -> Engine.consistent s.
Proof.
  induction 1 as [s | s1 s2 s3 _ IH St]; intros I; [exact I|].
  apply (step_consistent s2 s3 St). now apply IH.
Qed.

Lemma initial_consistent (s : Engine.Store) : Engine.initial s -> Engine.consistent s.
Proof.
  intros (D & Sn & B). unfold Engine.consistent. rewrite D. auto.
Qed.

(** C1.  Every period that has been transitioned to Closed, by whatever
    sequence of ledger writes, submissions and closes since the month was
    opened, holds a snapshot, and the closing balances of the balance rows
    written for it add up to that snapshot's closing NAV exactly, in
    hundredths. *)
Theorem closed_period_reconciles_exactly :
  forall s0 s : Engine.Store,
  Engine.initial s0 ->
  Engine.steps s0 s ->
  Engine.status (Engine.period s) = closed ->
  exists snap,
    Engine.snapshot s = Some snap
    /\ Engine.sum_money (map Engine.bal_closing_balance (Engine.balances s))
       = Engine.snap_closing_nav snap.
Proof.
  intros s0 s I S C.
  pose proof (steps_consistent s0 s S (initial_consistent s0 I)) as K.
  unfold Engine.consistent in K. rewrite C in K.
  destruct K as (snap & Sn & _ & Sum). eauto.
Qed.

Lemma closed_period_reconciles_exactly_witness :
  Engine.status (Engine.period Samples.scenario_D_closed) = closed
  /\ exists snap,
       Engine.snapshot Samples.scenario_D_closed = Some snap
       /\ Engine.sum_money
            (map Engine.bal_closing_balance (Engine.balances Samples.scenario_D_closed))
          = Engine.snap_closing_nav snap.
Proof.
  split; [reflexivity|].
  apply (closed_period_reconciles_exactly Samples.scenario_D Samples.scenario_D_closed).
  - repeat split.
  - eapply Engine.steps_step; [eapply Engine.steps_step; [eapply Engine.steps_step|]|].
    + apply Engine.steps_refl.
    + apply (Engine.step_write
               (Engine.CreateEntry
                  (Samples.entry contribution (Samples.ugx 250000) (Some 1)))).
      reflexivity.
    + apply Engine.step_submit. reflexivity.
    + eapply (Engine.step_close 1771000000). vm_compute. reflexivity.
  - reflexivity.
Defined.

(** The sample period closes at 10,650,000 with one balance row, and a
    second close, like any later ledger write, is refused. *)
Example closed_sample_period :
  Engine.period Samples.scenario_D_closed
  = {| Engine.status := closed;
       Engine.opening_nav := Samples.ugx 10000000;
       Engine.closing_nav := Samples.ugx 10650000;
       Engine.reconciliation_diff := 0;
       Engine.locked_at := Some 1771000000 |}
  /\ map Engine.bal_closing_balance (Engine.balances Samples.scenario_D_closed)
     = [Samples.ugx 10650000]
  /\ Engine.closePeriod 1771000001 Samples.scenario_D_closed = Engine.Err Engine.StateError
  /\ Engine.writeLedger (Engine.DeleteEntry 0) Samples.scenario_D_closed
     = Engine.Err Engine.StateError.
Proof. repeat split; reflexivity. Qed.

End EngineFacts.

Section ClosingNavFacts.

Import Platform.

(** C5.  The closing NAV of a preview is the opening NAV plus contributions
    minus withdrawals plus income minus expenses, each total being the sum
    of the amounts of the ledger entries of that type; it does not depend on
    the investor rows, whatever the opening positions are; and it is the
    closing NAV written into the snapshot at close. *)
Theorem closing_nav_from_ledger_totals :
  forall s : Engine.Store,
  let t := Engine.aggregate (Engine.ledger s) in
  let of_type ty :=
    Engine.sum_money
      (map Engine.amount
           (filter (fun e => EntryType_eqb (Engine.entry_type e) ty) (Engine.ledger s))) in
  Engine.preview_closing_nav (Engine.previewPeriod s)
  = Engine.opening_nav (Engine.period s)
    + Engine.total_contributions t - Engine.total_withdrawals t
    + Engine.total_income t - Engine.total_expenses t
  /\ Engine.total_contributions t = of_type contribution
  /\ Engine.total_withdrawals t = of_type withdrawal
  /\ Engine.total_income t = of_type income
  /\ Engine.total_expenses t = of_type expense
  /\ (forall ops,
        Engine.preview_closing_nav (Engine.previewPeriod (Engine.with_opening_positions s ops))
        = Engine.preview_closing_nav (Engine.previewPeriod s))
  /\ (forall now s' snap,
        Engine.closePeriod now s = Engine.Ok (s', snap) ->
        Engine.snap_closing_nav snap
        = Engine.preview_closing_nav (Engine.previewPeriod s)).
Proof.
  intros s t of_type. repeat split.
  intros now s' snap H.
  apply closePeriod_Ok in H as (_ & _ & _ & -> & _). reflexivity.
Qed.

(** The club figure and the investor rows are computed apart: with a stray
    adjustment the rows add up to 5.00 more than the closing NAV. *)
Example closing_nav_is_not_the_sum_of_rows :
  let pv := Engine.previewPeriod Samples.scenario_E in
  Engine.preview_closing_nav pv = Samples.ugx 10400000
  /\ Engine.sum_money (map Engine.closing_balance (Engine.positions pv))
     = Samples.ugx 10400000 + 500
  /\ Engine.reconciliation pv
     = {| Engine.reconciled := false; Engine.mismatch := -500;
          Engine.stamp := Engine.Mismatch (-500) |}.
Proof. repeat split; reflexivity. Qed.

Example scenarios_A_B_C :
  map Engine.closing_balance (Engine.positions (Engine.previewPeriod Samples.scenario_A))
  = [Samples.ugx 10400000]
  /\ Engine.preview_closing_nav (Engine.previewPeriod Samples.scenario_A) = Samples.ugx 10400000
  /\ map Engine.closing_balance (Engine.positions (Engine.previewPeriod Samples.scenario_B))
     = [Samples.ugx 6600000; Samples.ugx 4400000]
  /\ Engine.preview_closing_nav (Engine.previewPeriod Samples.scenario_B) = Samples.ugx 11000000
  /\ map Engine.closing_balance (Engine.positions (Engine.previewPeriod Samples.scenario_C))
     = [Samples.ugx 7100000; Samples.ugx 4400000]
  /\ Engine.preview_closing_nav (Engine.previewPeriod Samples.scenario_C) = Samples.ugx 11500000.
Proof. repeat split; reflexivity. Qed.

End ClosingNavFacts.

Section ChecklistFacts.

Import Platform.

Lemma checklist_lookups (s : Engine.Store) :
  let k := Engine.conditions s in
  let m := Engine.checklist (Engine.getCloseChecklist s) in
  m !! "has_positions" = Some (Engine.has_positions k)
  /\ m !! "has_ledger_entries" = Some (Engine.has_ledger_entries k)
  /\ m !! "submitted_for_review" = Some (Engine.submitted_for_review k)
  /\ m !! "reconciled" = Some (Engine.cond_reconciled k)
  /\ m !! "not_already_closed" = Some (Engine.not_already_closed k).
Proof.
  unfold Engine.getCloseChecklist; cbn [Engine.checklist].
  repeat split; simplify_map_eq; reflexivity.
Qed.

Lemma can_close_iff (s : Engine.Store) :
  let k := Engine.conditions s in
  Engine.can_close (Engine.getCloseChecklist s) = true
  <-> Engine.has_positions k = true
      /\ Engine.has_ledger_entries k = true
      /\ Engine.submitted_for_review k = true
      /\ Engine.cond_reconciled k = true
      /\ Engine.not_already_closed k = true.
Proof.
  unfold Engine.getCloseChecklist; cbn [Engine.can_close].
  rewrite !andb_true_iff. tauto.
Qed.

Lemma closePeriod_blocked (now : Z) (s : Engine.Store) :
  Engine.can_close (Engine.getCloseChecklist s) = false ->
  exists e, Engine.closePeriod now s = Engine.Err e.
Proof.
  intros C. destruct (Engine.closePeriod now s) as [[s' snap]|e] eqn:E; [|eauto].
  apply closePeriod_Ok in E as (_ & _ & C' & _). congruence.
Qed.

Lemma length_zero_iff {A : Type} (l : list A) :
  negb (Nat.eqb (List.length l) 0) = true <-> l <> [].
Proof. destruct l; simpl; split; congruence. Qed.

(** C6.  The close checklist's [can_close] is true exactly when its five
    conditions are all true: the allocation has investor positions, the
    ledger has an entry, the status is review, the reconciliation is exact,
    and the status is not closed.  Each condition is served under its own
    key and the Close Month view lists the five by key.  Whenever one of
    them is false, [can_close] is false, [closePeriod] fails, the Run Close
    button is disabled and a click on it sends nothing. *)
Theorem close_checklist_gate :
  forall (s : Engine.Store) (stamp_text mismatch_text : string),
  let k := Engine.conditions s in
  let c := Engine.getCloseChecklist s in
  let response := Engine.checklistResponse c stamp_text mismatch_text in
  (Engine.can_close c = true
   <-> Engine.positions (Engine.previewPeriod s) <> []
       /\ Engine.ledger s <> []
       /\ Engine.status (Engine.period s) = review
       /\ Engine.reconciled (Engine.reconciliation (Engine.previewPeriod s)) = true
       /\ Engine.status (Engine.period s) <> closed)
  /\ map (fun r => (CloseMonthView.key r, CloseMonthView.pass r))
         (CloseMonthView.checklistRows (Some response))
     = [ ("has_positions", Some (Engine.has_positions k));
         ("has_ledger_entries", Some (Engine.has_ledger_entries k));
         ("submitted_for_review", Some (Engine.submitted_for_review k));
         ("reconciled", Some (Engine.cond_reconciled k));
         ("not_already_closed", Some (Engine.not_already_closed k)) ]
  /\ (Engine.has_positions k = false
      \/ Engine.has_ledger_entries k = false
      \/ Engine.submitted_for_review k = false
      \/ Engine.cond_reconciled k = false
      \/ Engine.not_already_closed k = false ->
      Engine.can_close c = false
      /\ (forall now, exists e, Engine.closePeriod now s = Engine.Err e)
      /\ (forall ctx submitting,
            PlatformContext.ctx_checklist ctx = Some response ->
            CloseMonthView.runCloseDisabled ctx submitting = true
            /\ CloseMonthView.clickRunClose ctx submitting = None)).
Proof.
  intros s stamp_text mismatch_text k c response.
  split.
  { unfold c. rewrite can_close_iff. unfold Engine.conditions; simpl.
    rewrite !length_zero_iff, PeriodStatus_eqb_eq, negb_true_iff.
    rewrite <- not_true_iff_false, PeriodStatus_eqb_eq. reflexivity. }
  split.
  { destruct (checklist_lookups s) as (L1 & L2 & L3 & L4 & L5).
    unfold CloseMonthView.checklistRows, response, Engine.checklistResponse.
    cbn [map CloseMonthView.key CloseMonthView.pass Platform.checklist].
    fold c. unfold c. now rewrite L1, L2, L3, L4, L5. }
  intros F.
  assert (C : Engine.can_close c = false).
  { apply not_true_iff_false. unfold c. rewrite can_close_iff. fold k.
    intros (H1 & H2 & H3 & H4 & H5).
    destruct F as [F|[F|[F|[F|F]]]]; congruence. }
  split; [exact C|]. split.
  { intros now. now apply closePeriod_blocked. }
  intros ctx submitting E.
  assert (D : CloseMonthView.runCloseDisabled ctx submitting = true).
  { unfold CloseMonthView.runCloseDisabled, CloseMonthView.checklistCanClose.
    rewrite E. unfold response, Engine.checklistResponse; cbn [Platform.can_close].
    rewrite C. now rewrite orb_true_r. }
  split; [exact D|].
  unfold CloseMonthView.clickRunClose. now rewrite D.
Qed.

(** Scenario D: every condition but the review status holds, and that one
    is enough to refuse the close. *)
Example checklist_in_draft :
  let c := Engine.getCloseChecklist Samples.scenario_D in
  Engine.conditions Samples.scenario_D
  = {| Engine.has_positions := true; Engine.has_ledger_entries := true;
       Engine.submitted_for_review := false; Engine.cond_reconciled := true;
       Engine.not_already_closed := true |}
  /\ Engine.can_close c = false
  /\ Engine.closePeriod 0 Samples.scenario_D = Engine.Err Engine.StateError
  /\ Engine.can_close (Engine.getCloseChecklist Samples.scenario_A) = true
  /\ Engine.closePeriod 0 Samples.scenario_E
     = Engine.Err (Engine.ReconciliationMismatchError (-500)).
Proof. repeat split; reflexivity. Qed.

End ChecklistFacts.

(** ** lib/utils.ts: the allocation helpers *)

Section AllocationHelperFacts.

Local Open Scope float_scope.

(** Against C2 as stated: [calculateOwnership] does not return the
    fraction [b / n] rounded to 6 decimals.  For [b = 1.00] and [n = 2.00] the rounded fraction is
    0.500000 and the function returns 50; for [b = 1.00] and [n = 3.00] the
    rounded fraction is 0.333333 and the function returns
    33.33333333333333, which is not 33.333333 either. *)
Lemma calculateOwnership_is_not_the_rounded_fraction :
  Utils.calculateOwnership (Decimal.of_money 100) (Decimal.of_money 200)
  <> Decimal.of_ownership (Engine.compute_ownership_pct 100 200)
  /\ Utils.calculateOwnership (Decimal.of_money 100) (Decimal.of_money 300)
     <> Decimal.of_ownership (Engine.compute_ownership_pct 100 300)
  /\ Utils.calculateOwnership (Decimal.of_money 100) (Decimal.of_money 300)
     <> Decimal.to_number 33333333 6.
Proof.
  repeat split; apply Prim2SF_neq; vm_compute; discriminate.
Qed.

(** C2, as the code has it.  [calculateOwnership] returns 0 when the club
    opening NAV is zero (of either sign), whatever the opening balance;
    otherwise it returns the binary64 quotient [b / n] multiplied by 100, a
    percentage on the scale 0 to 100: the IEEE 754 quotient and product,
    each rounded to binary64 once, with no rounding to 6 decimals. *)
Theorem calculateOwnership_percentage :
  forall b n : JS.number,
  (JS.strict_eq n 0 = true -> Utils.calculateOwnership b n = 0)
  /\ (JS.strict_eq n 0 = false ->
      Utils.calculateOwnership b n = (b / n) * 100
      /\ Prim2SF (Utils.calculateOwnership b n)
         = SFmul prec emax (SFdiv prec emax (Prim2SF b) (Prim2SF n)) (Prim2SF 100))
  /\ Utils.calculateOwnership b 0 = 0
  /\ Utils.calculateOwnership b (-0) = 0.
Proof.
  intros b n. unfold Utils.calculateOwnership.
  split; [|split; [|split]].
  - intros H. now rewrite H.
  - intros H. rewrite H. split; [reflexivity|].
    now rewrite mul_spec, div_spec.
  - reflexivity.
  - reflexivity.
Qed.

(** Against C3 as stated: [calculateNetAllocation] does not subtract an
    expense share from an income share, each rounded to money scale.  At 50% ownership with income
    0.50 and expenses 0.25 the rounded shares are 0.25 and 0.13 and their
    difference is 0.12; the function returns 0.125, and 0.00125 when the
    ownership is passed as the fraction 0.5. *)
Lemma calculateNetAllocation_is_not_the_difference_of_rounded_shares :
  Engine.compute_share 500000 50 = 25%Z
  /\ Engine.compute_share 500000 25 = 13%Z
  /\ Utils.calculateNetAllocation 50 (Decimal.of_money 50) (Decimal.of_money 25)
     <> Decimal.of_money (Engine.compute_share 500000 50 - Engine.compute_share 500000 25)
  /\ Utils.calculateNetAllocation (Decimal.of_ownership 500000)
                                  (Decimal.of_money 50) (Decimal.of_money 25)
     <> Decimal.of_money (Engine.compute_share 500000 50 - Engine.compute_share 500000 25).
Proof.
  repeat split; apply Prim2SF_neq; vm_compute; discriminate.
Qed.

(** C3, as the code has it.  [calculateNetAllocation] divides the ownership
    percentage by 100 and multiplies it by the net income, total income
    minus total expenses, in binary64 arithmetic (the IEEE 754 quotient,
    difference and product, each rounded to binary64 once).  No income share
    or expense share is formed and nothing is rounded to money scale: income
    and expenses count only through their difference. *)
Theorem calculateNetAllocation_on_net_income :
  forall ownership totalIncome totalExpenses : JS.number,
  Utils.calculateNetAllocation ownership totalIncome totalExpenses
  = (ownership / 100) * (totalIncome - totalExpenses)
  /\ Prim2SF (Utils.calculateNetAllocation ownership totalIncome totalExpenses)
     = SFmul prec emax
         (SFdiv prec emax (Prim2SF ownership) (Prim2SF 100))
         (SFsub prec emax (Prim2SF totalIncome) (Prim2SF totalExpenses))
  /\ (forall income' expenses' : JS.number,
        totalIncome - totalExpenses = income' - expenses' ->
        Utils.calculateNetAllocation ownership income' expenses'
        = Utils.calculateNetAllocation ownership totalIncome totalExpenses).
Proof.
  intros ownership totalIncome totalExpenses.
  unfold Utils.calculateNetAllocation.
  split; [reflexivity|]. split.
  - now rewrite mul_spec, div_spec, sub_spec.
  - intros income' expenses' E. now rewrite E.
Qed.

(** Against C4 as stated: [calculateClosingBalance] leaves the investor's
    adjustments out.  For the
    investor of [Samples.adjusted_position] (opening balance 100.00, an
    adjustment of 5.00, nothing else) the closing balance is 105.00, and the
    function, which has no adjustment argument, returns 100. *)
Lemma calculateClosingBalance_ignores_adjustments :
  let p := Samples.adjusted_position in
  Engine.closing_balance p = 10500%Z
  /\ Utils.calculateClosingBalance
       (Decimal.of_money (Engine.opening_balance p))
       (Decimal.of_money (Engine.contributions p))
       (Decimal.of_money (Engine.withdrawals p))
       (Decimal.of_money (Engine.net_allocation p))
     = 100
  /\ Utils.calculateClosingBalance
       (Decimal.of_money (Engine.opening_balance p))
       (Decimal.of_money (Engine.contributions p))
       (Decimal.of_money (Engine.withdrawals p))
       (Decimal.of_money (Engine.net_allocation p))
     <> Decimal.of_money (Engine.closing_balance p).
Proof.
  cbv zeta. split; [reflexivity|]. split; [reflexivity|].
  apply Prim2SF_neq; vm_compute; discriminate.
Qed.

(** C4, as the code has it.  [calculateClosingBalance] returns the opening
    balance plus the contribution minus the withdrawal plus the net
    allocation, added from left to right in binary64 arithmetic (the IEEE
    754 sums and difference, each rounded to binary64 once); the investor's
    adjustment total is not an input. *)
Theorem calculateClosingBalance_formula :
  forall openingBalance contribution withdrawal netAllocation : JS.number,
  Utils.calculateClosingBalance openingBalance contribution withdrawal netAllocation
  = ((openingBalance + contribution) - withdrawal) + netAllocation
  /\ Prim2SF (Utils.calculateClosingBalance openingBalance contribution
                                            withdrawal netAllocation)
     = SFadd prec emax
         (SFsub prec emax
            (SFadd prec emax (Prim2SF openingBalance) (Prim2SF contribution))
            (Prim2SF withdrawal))
         (Prim2SF netAllocation).
Proof.
  intros openingBalance contribution withdrawal netAllocation.
  unfold Utils.calculateClosingBalance.
  split; [reflexivity|].
  now rewrite add_spec, sub_spec, add_spec.
Qed.

(** The helpers on the figures of scenario C: 60% of an income of 1,000,000
    is 600,000, and with a contribution of 500,000 the balance closes at
    7,100,000. *)
Example helpers_on_scenario_C :
  Utils.calculateOwnership 6000000 10000000 = 60
  /\ Utils.calculateNetAllocation 60 1000000 0 = 600000
  /\ Utils.calculateClosingBalance 6000000 500000 0 600000 = 7100000
  /\ Utils.calculateOwnership 6000000 0 = 0.
Proof. repeat split; reflexivity. Qed.

End AllocationHelperFacts.

(** ** lib/feedback.ts: what [parseMoneyInput] does not look at *)

Section SeparatorFacts.

Import StringSpec.

Lemma append_nil_r (s : string) : s ++ "" = s.
Proof. induction s as [|c s IH]; [reflexivity|]. now rewrite append_cons, IH. Qed.


Lemma replaceAll_app (a b : string) :
  JS.replaceAll "," "" (a ++ b) = JS.replaceAll "," "" a ++ JS.replaceAll "," "" b.
Proof.
  induction a as [|c a IH]; [reflexivity|].
  rewrite append_cons. cbn [JS.replaceAll].
  destruct (Ascii.eqb c ","); rewrite IH; [|rewrite append_cons]; reflexivity.
Qed.

Lemma replaceAll_blank (s : string) : blank s = true -> JS.replaceAll "," "" s = s.
Proof.
  induction s as [|c s IH]; [reflexivity|].
  rewrite blank_cons. intros [W B]%andb_true_iff. cbn [JS.replaceAll].
  destruct (Ascii.eqb c ",") eqn:E.
  - apply Ascii.eqb_eq in E. subst c. discriminate.
  - now rewrite IH.
Qed.

Lemma trimStart_blank (s : string) : blank s = true -> JS.trimStart s = "".
Proof.
  induction s as [|c s IH]; [reflexivity|].
  rewrite blank_cons. intros [W B]%andb_true_iff. cbn [JS.trimStart]. now rewrite W, IH.
Qed.

Lemma trimEnd_blank (s : string) : blank s = true -> JS.trimEnd s = "".
Proof.
  induction s as [|c s IH]; [reflexivity|].
  rewrite blank_cons. intros [W B]%andb_true_iff. cbn [JS.trimEnd]. now rewrite IH, W.
Qed.

Lemma trimEnd_app_blank (s post : string) :
  blank post = true -> JS.trimEnd (s ++ post) = JS.trimEnd s.
Proof.
  intros B. induction s as [|c s IH].
  - rewrite append_nil_l. now apply trimEnd_blank.
  - rewrite append_cons. cbn [JS.trimEnd]. now rewrite IH.
Qed.

Lemma trim_app_blank (pre s post : string) :
  blank pre = true -> blank post = true ->
  JS.trim (pre ++ s ++ post) = JS.trim s.
Proof.
  intros Bpre Bpost. unfold JS.trim.
  induction pre as [|c pre IH].
  - rewrite append_nil_l. clear Bpre.
    induction s as [|d s IHs].
    + rewrite append_nil_l. now rewrite trimStart_blank.
    + rewrite append_cons. cbn [JS.trimStart].
      destruct (JS.isWhiteSpace d); [exact IHs|].
      rewrite <- append_cons. now apply trimEnd_app_blank.
  - rewrite blank_cons in Bpre. apply andb_true_iff in Bpre as [W B].
    rewrite append_cons. cbn [JS.trimStart]. rewrite W. now apply IH.
Qed.

(** The result of [parseMoneyInput] is decided by the comma-stripped,
    trimmed text alone. *)
Lemma parseMoneyInput_by_normalized (a b : string) :
  JS.trim (JS.replaceAll "," "" a) = JS.trim (JS.replaceAll "," "" b) ->
  (a = "" -> JS.trim (JS.replaceAll "," "" b) = "") ->
  (b = "" -> JS.trim (JS.replaceAll "," "" a) = "") ->
  Feedback.parseMoneyInput a = Feedback.parseMoneyInput b.
Proof.
  intros E Ea Eb. unfold Feedback.parseMoneyInput. rewrite <- E.
  destruct a as [|x a], b as [|y b]; cbn [JS.not_string]; try reflexivity.
  now rewrite (Eb eq_refl).
Qed.

(** [parseMoneyInput] does not check where the commas are, and white space
    around the amount does not matter: a comma inserted at any place of the
    text, and any white space put before or after the text, leave the
    result as it is.  So [1,2,3] reads as 123 and [,5] as 5. *)
Theorem parseMoneyInput_ignores_commas_and_outer_blanks :
  forall a b pre post : string,
  blank pre = true -> blank post = true ->
  Feedback.parseMoneyInput (a ++ "," ++ b) = Feedback.parseMoneyInput (a ++ b)
  /\ Feedback.parseMoneyInput (pre ++ a ++ post) = Feedback.parseMoneyInput a.
Proof.
  intros a b pre post Bpre Bpost. split.
  - apply parseMoneyInput_by_normalized.
    + now rewrite !replaceAll_app.
    + intros E. destruct a; discriminate.
    + intros E. destruct a; [destruct b; [reflexivity | discriminate] | discriminate].
  - assert (N : JS.trim (JS.replaceAll "," "" (pre ++ a ++ post))
                = JS.trim (JS.replaceAll "," "" a)).
    { rewrite !replaceAll_app, (replaceAll_blank pre Bpre), (replaceAll_blank post Bpost).
      now apply trim_app_blank. }
    apply parseMoneyInput_by_normalized; [exact N| |].
    + intros E. rewrite <- N, E. reflexivity.
    + intros ->. exact N.
Qed.

Lemma parseMoneyInput_ignores_commas_and_outer_blanks_witness :
  Feedback.parseMoneyInput ("1,2" ++ "," ++ "3") = Feedback.parseMoneyInput ("1,2" ++ "3")
  /\ Feedback.parseMoneyInput ("  " ++ "1,2" ++ " ") = Feedback.parseMoneyInput "1,2".
Proof.
  apply (parseMoneyInput_ignores_commas_and_outer_blanks "1,2" "3" "  " " ");
    reflexivity.
Defined.

End SeparatorFacts.

(** ** views/LedgerView.tsx: what the requests carry *)

Section PayloadFacts.

Import Platform PlatformContext LedgerView StringSpec.

Local Open Scope float_scope.

(** A finite number is a zero or has a mantissa and an exponent. *)
Lemma isFinite_cases (x : float) :
  JS.isFinite x = true ->
  (exists s, Prim2SF x = S754_zero s) \/ (exists s m e, Prim2SF x = S754_finite s m e).
Proof.
  unfold JS.isFinite, is_finite, is_nan, is_infinity.
  rewrite !eqb_spec, abs_spec.
  change (Prim2SF infinity) with (S754_infinity false).
  destruct (Prim2SF x) as [s|s| |s m e]; simpl; try discriminate; eauto.
  destruct s; discriminate.
Qed.

(** A finite number that is neither zero nor negative is positive. *)
Lemma finite_nonzero_nonnegative_is_positive (x : float) :
  JS.isFinite x = true ->
  JS.strict_eq x 0 = false ->
  JS.lt x 0 = false ->
  (0 <? x) = true.
Proof.
  intros F Z N. unfold JS.strict_eq, JS.lt in *.
  rewrite eqb_spec in Z. rewrite ltb_spec in *.
  change (Prim2SF 0) with (S754_zero false) in *.
  destruct (isFinite_cases x F) as [(s & E) | (s & m & e & E)]; rewrite E in *.
  - discriminate.
  - destruct s; [discriminate | reflexivity].
Qed.

Lemma trim_trimmed (s : string) : trimmed (JS.trim s) = true.
Proof. now destruct (trim_spec s) as (pre & post & _ & _ & _ & T). Qed.

Lemma or_string_nonempty (s fallback : string) :
  fallback <> "" -> or_string s fallback <> "".
Proof. unfold or_string. destruct s; simpl; congruence. Qed.

Lemma requiresInvestor_iff (t : EntryType) :
  requiresInvestor t = true <-> t = contribution \/ t = withdrawal \/ t = adjustment.
Proof.
  destruct t; simpl; split; auto; try discriminate;
    intros [H|[H|H]]; discriminate.
Qed.

(** What a validated entry is like. *)
Lemma validateEntryInput_Valid_facts
  (amountInput descInput inv : string) (type : EntryType) (a : JS.number) (d : string) :
  validateEntryInput amountInput descInput inv type = Valid a d ->
  JS.isFinite a = true
  /\ JS.strict_eq a 0 = false
  /\ (type <> adjustment -> (0 <? a) = true)
  /\ (3 <= JS.length d)%nat
  /\ trimmed d = true
  /\ (requiresInvestor type = true -> inv <> "").
Proof.
  intros V. apply validateEntryInput_Valid in V as (P & -> & Z & N & L & I).
  apply parseMoneyInput_Some in P as (_ & F).
  repeat split; auto.
  - intros T. now apply finite_nonzero_nonnegative_is_positive; auto.
  - apply trim_trimmed.
  - intros R. apply I. now apply requiresInvestor_iff.
Qed.

(** Every create request that [handleSubmit] sends is for the selected club
    and period, both set and the period not locked, and carries the form's
    entry type; an amount that is finite and not zero, and positive unless
    the type is adjustment; a description of at least 3 characters with no
    white space at either end; a category that is not empty; and an
    investor id exactly when the type is contribution, withdrawal or
    adjustment, which is then the number read from the form's investor
    field.  For income and expense no investor id is sent even if the form
    still holds one. *)
Theorem handleSubmit_request :
  forall (ctx : Value) (s : State) (r : Api.Request),
  handleSubmit ctx s = Sent r ->
  exists clubId periodId payload,
    r = Api.createLedgerEntry clubId periodId payload
    /\ selectedClubId ctx = Some clubId /\ clubId <> 0%Z
    /\ selectedPeriodId ctx = Some periodId /\ periodId <> 0%Z
    /\ locked ctx = false
    /\ Api.cp_entry_type payload = entryType s
    /\ JS.isFinite (Api.cp_amount payload) = true
    /\ JS.strict_eq (Api.cp_amount payload) 0 = false
    /\ (entryType s <> adjustment -> (0 <? Api.cp_amount payload) = true)
    /\ (3 <= JS.length (Api.cp_description payload))%nat
    /\ trimmed (Api.cp_description payload) = true
    /\ Api.cp_category payload <> ""
    /\ Api.cp_investor_id payload
       = (if requiresInvestor (entryType s)
          then Some (JS.Number (investorId s)) else None)
    /\ (requiresInvestor (entryType s) = true -> investorId s <> "").
Proof.
  intros ctx s r. unfold handleSubmit.
  destruct (selectedClubId ctx) as [c|]; [|discriminate].
  destruct (selectedPeriodId ctx) as [p|]; [|discriminate].
  destruct (c =? 0)%Z eqn:Ec; [discriminate|].
  destruct (p =? 0)%Z eqn:Ep; [discriminate|].
  destruct (locked ctx); [discriminate|]. cbn [orb].
  destruct (validateEntryInput _ _ _ _) as [a d|m] eqn:V; [|discriminate].
  intros [= <-].
  apply validateEntryInput_Valid_facts in V as (F & Z & Pos & L & T & I).
  apply Z.eqb_neq in Ec, Ep.
  eexists c, p, _. split; [reflexivity|]. cbn.
  repeat split; auto.
  - now apply or_string_nonempty.
  - destruct (requiresInvestor (entryType s)) eqn:R; [|reflexivity].
    specialize (I eq_refl). destruct (investorId s); [congruence | reflexivity].
Qed.

Lemma handleSubmit_request_witness :
  exists clubId periodId payload,
    Api.createLedgerEntry 1 7
      {| Api.cp_entry_type := income; Api.cp_amount := 2500000;
         Api.cp_description := "Monthly portfolio income"; Api.cp_category := "general";
         Api.cp_tx_date := None; Api.cp_note := None; Api.cp_reference := None;
         Api.cp_investor_id := None |}
    = Api.createLedgerEntry clubId periodId payload
    /\ selectedClubId (usePlatform (Samples.provider review)) = Some clubId
    /\ clubId <> 0%Z
    /\ selectedPeriodId (usePlatform (Samples.provider review)) = Some periodId
    /\ periodId <> 0%Z
    /\ locked (usePlatform (Samples.provider review)) = false
    /\ Api.cp_entry_type payload = income
    /\ JS.isFinite (Api.cp_amount payload) = true
    /\ JS.strict_eq (Api.cp_amount payload) 0 = false
    /\ (income <> adjustment -> (0 <? Api.cp_amount payload) = true)
    /\ (3 <= JS.length (Api.cp_description payload))%nat
    /\ trimmed (Api.cp_description payload) = true
    /\ Api.cp_category payload <> ""
    /\ Api.cp_investor_id payload = None
    /\ (false = true -> "3" <> "").
Proof.
  exact (handleSubmit_request
           (usePlatform (Samples.provider review))
           (Samples.form income " 2,500,000" "Monthly portfolio income " "3")
           _ eq_refl).
Defined.

(** Every update request that [handleUpdateEntry] sends is for the selected
    club and period, in status draft or review and not locked, names the
    entry open in the edit dialog, and carries an amount that is finite and
    not zero, and positive unless that entry's type is adjustment; a
    description of at least 3 characters with no white space at either end;
    and a category that is not empty. *)
Theorem handleUpdateEntry_request :
  forall (ctx : Value) (s : State) (r : Api.Request),
  handleUpdateEntry ctx s = Sent r ->
  exists clubId periodId entry payload,
    r = Api.updateLedgerEntry clubId periodId (id entry) payload
    /\ editingEntry s = Some entry
    /\ selectedClubId ctx = Some clubId /\ clubId <> 0%Z
    /\ selectedPeriodId ctx = Some periodId /\ periodId <> 0%Z
    /\ locked ctx = false
    /\ (ctx_status ctx = draft \/ ctx_status ctx = review)
    /\ JS.isFinite (Api.up_amount payload) = true
    /\ JS.strict_eq (Api.up_amount payload) 0 = false
    /\ (entry_type entry <> adjustment -> (0 <? Api.up_amount payload) = true)
    /\ (3 <= JS.length (Api.up_description payload))%nat
    /\ trimmed (Api.up_description payload) = true
    /\ Api.up_category payload <> "".
Proof.
  intros ctx s r. unfold handleUpdateEntry.
  destruct (selectedClubId ctx) as [c|]; [|discriminate].
  destruct (selectedPeriodId ctx) as [p|]; [|discriminate].
  destruct (editingEntry s) as [e|]; [|discriminate].
  destruct (c =? 0)%Z eqn:Ec; [discriminate|].
  destruct (p =? 0)%Z eqn:Ep; [discriminate|].
  destruct (locked ctx); [discriminate|]. cbn [orb].
  destruct (PeriodStatus_eqb (ctx_status ctx) closed) eqn:St; [discriminate|].
  destruct (validateEntryInput _ _ _ _) as [a d|m] eqn:V; [|discriminate].
  intros [= <-].
  apply validateEntryInput_Valid_facts in V as (F & Z & Pos & L & T & _).
  apply Z.eqb_neq in Ec, Ep.
  eexists c, p, e, _. split; [reflexivity|]. cbn.
  repeat split; auto.
  - destruct (ctx_status ctx); auto; discriminate.
  - now apply or_string_nonempty.
Qed.

Lemma handleUpdateEntry_request_witness :
  exists clubId periodId entry payload,
    Api.updateLedgerEntry 1 7 42
      {| Api.up_amount := 2600000;
         Api.up_description := "February contribution (corrected)";
         Api.up_category := "general"; Api.up_tx_date := Some "2026-02-13";
         Api.up_reference := None; Api.up_note := None |}
    = Api.updateLedgerEntry clubId periodId (id entry) payload
    /\ Some Samples.ledger_entry = Some entry
    /\ selectedClubId (usePlatform (Samples.provider review)) = Some clubId
    /\ clubId <> 0%Z
    /\ selectedPeriodId (usePlatform (Samples.provider review)) = Some periodId
    /\ periodId <> 0%Z
    /\ locked (usePlatform (Samples.provider review)) = false
    /\ (review = draft \/ review = review)
    /\ JS.isFinite (Api.up_amount payload) = true
    /\ JS.strict_eq (Api.up_amount payload) 0 = false
    /\ (entry_type entry <> adjustment -> (0 <? Api.up_amount payload) = true)
    /\ (3 <= JS.length (Api.up_description payload))%nat
    /\ trimmed (Api.up_description payload) = true
    /\ Api.up_category payload <> "".
Proof.
  exact (handleUpdateEntry_request
           (usePlatform (Samples.provider review))
           (Samples.form income "1" "abc" "")
           _ eq_refl).
Defined.

End PayloadFacts.

(** ** Decimal text of integer ids *)

Section DecimalTextFacts.

Import RouteSpec.

Lemma allDigits_cons (c : ascii) (s : string) :
  allDigits (String c s) = JS.isDecimalDigit c && allDigits s.
Proof. reflexivity. Qed.

Lemma allDigits_app (a b : string) :
  allDigits (a ++ b) = allDigits a && allDigits b.
Proof.
  induction a as [|c a IH]; [reflexivity|].
  now rewrite append_cons, !allDigits_cons, IH, andb_assoc.
Qed.

Lemma length_app (a b : string) :
  String.length (a ++ b) = (String.length a + String.length b)%nat.
Proof.
  induction a as [|c a IH]; [reflexivity|].
  rewrite append_cons. cbn [String.length]. now rewrite IH.
Qed.

Lemma digit_is_not_space (c : ascii) :
  JS.isDecimalDigit c = true -> JS.isWhiteSpace c = false.
Proof.
  unfold JS.isDecimalDigit, JS.isWhiteSpace.
  destruct (N_of_ascii c) as [|n]; [discriminate|].
  intros [L U]%andb_true_iff. apply N.leb_le in L, U.
  apply orb_false_iff. split; [apply orb_false_iff; split|].
  - apply andb_false_iff. right. apply N.leb_gt. lia.
  - apply N.eqb_neq. lia.
  - apply N.eqb_neq. lia.
Qed.

Lemma string_of_uint_digits (u : Decimal.uint) :
  allDigits (NilEmpty.string_of_uint u) = true.
Proof. induction u; [reflexivity | exact IHu ..]. Qed.

Lemma digitsValue_acc (u : Decimal.uint) (acc : positive) :
  JS.digitsValue 10 (Npos acc) (NilEmpty.string_of_uint u)
  = Some (Npos (Pos.of_uint_acc u acc)).
Proof.
  revert acc.
  induction u as [|u IH|u IH|u IH|u IH|u IH|u IH|u IH|u IH|u IH|u IH];
    intros acc; [reflexivity|..];
    cbn [NilEmpty.string_of_uint JS.digitsValue Pos.of_uint_acc];
    match goal with
    | |- context [JS.digitValue ?c] =>
        change (JS.digitValue c) with (Some (N_of_ascii c - 48)%N)
    end; cbn [N_of_ascii N_of_digits];
    match goal with
    | |- context [JS.digitsValue 10 ?a _] =>
        match goal with
        | |- context [Pos.of_uint_acc u ?b] =>
            replace a with (Npos b) by lia
        end
    end; apply IH.
Qed.

Lemma digitsValue_of_uint (u : Decimal.uint) :
  JS.digitsValue 10 0 (NilEmpty.string_of_uint u) = Some (Pos.of_uint u).
Proof.
  induction u as [|u IH|u IH|u IH|u IH|u IH|u IH|u IH|u IH|u IH|u IH];
    [reflexivity | exact IH | ..];
    cbn [NilEmpty.string_of_uint Pos.of_uint];
    apply (digitsValue_acc u).
Qed.

(** The text written for a positive id: digits only, and not empty. *)
Lemma String_of_id_pos (p : positive) :
  LedgerView.String_of_id (Zpos p) = NilEmpty.string_of_uint (Pos.to_uint p)
  /\ LedgerView.String_of_id (Zpos p) <> ""
  /\ allDigits (LedgerView.String_of_id (Zpos p)) = true.
Proof.
  assert (E : LedgerView.String_of_id (Zpos p) = NilEmpty.string_of_uint (Pos.to_uint p)).
  { unfold LedgerView.String_of_id. cbn [Z.to_int NilZero.string_of_int].
    unfold NilZero.string_of_uint.
    destruct (Pos.to_uint p) eqn:U; try reflexivity.
    exfalso. revert U. apply DecimalPos.Unsigned.to_uint_nonnil. }
  split; [exact E|]. rewrite E. split.
  - pose proof (DecimalPos.Unsigned.to_uint_nonnil p) as N.
    destruct (Pos.to_uint p); [congruence | discriminate ..].
  - apply string_of_uint_digits.
Qed.

Lemma spanDigits_app (d r : string) :
  allDigits d = true ->
  JS.isDecimalDigit (match r with String c _ => c | EmptyString => "/"%char end) = false ->
  JS.spanDigits (d ++ r) = (d, r).
Proof.
  intros D R. induction d as [|c d IH].
  - rewrite append_nil_l. destruct r as [|x r]; [reflexivity|].
    cbn [JS.spanDigits]. now rewrite R.
  - rewrite allDigits_cons in D. apply andb_true_iff in D as [C D].
    rewrite append_cons. cbn [JS.spanDigits]. now rewrite C, (IH D).
Qed.

Lemma trim_digits (s : string) : allDigits s = true -> JS.trim s = s.
Proof.
  intros D. unfold JS.trim.
  assert (S : JS.trimStart s = s).
  { destruct s as [|c s]; [reflexivity|].
    rewrite allDigits_cons in D. apply andb_true_iff in D as [C _].
    cbn [JS.trimStart]. now rewrite (digit_is_not_space c C). }
  rewrite S. clear S.
  induction s as [|c s IH]; [reflexivity|].
  rewrite allDigits_cons in D. apply andb_true_iff in D as [C D].
  cbn [JS.trimEnd]. rewrite (IH D).
  destruct s; [now rewrite (digit_is_not_space c C) | reflexivity].
Qed.

Lemma parseNumericLiteral_digits (s : string) :
  allDigits s = true ->
  JS.parseNumericLiteral s = JS.parseUnsignedDecimal false s.
Proof.
  destruct s as [|c s]; [reflexivity|].
  rewrite allDigits_cons. intros [C D]%andb_true_iff.
  destruct c as [[] [] [] [] [] [] [] []]; try discriminate C; try reflexivity.
  destruct s as [|c s]; [reflexivity|].
  rewrite allDigits_cons in D. apply andb_true_iff in D as [C2 _].
  destruct c as [[] [] [] [] [] [] [] []]; try discriminate C2; reflexivity.
Qed.

Lemma parseUnsignedDecimal_digits (s : string) (m : N) :
  allDigits s = true -> s <> "" ->
  JS.digitsValue 10 0 s = Some m ->
  JS.parseUnsignedDecimal false s = JS.roundInteger false m.
Proof.
  intros D N V. unfold JS.parseUnsignedDecimal.
  destruct (String.eqb s "Infinity") eqn:E.
  { apply String.eqb_eq in E. subst s. discriminate D. }
  pose proof (spanDigits_app s "" D eq_refl) as Sp.
  rewrite append_nil_r in Sp. rewrite Sp.
  rewrite append_nil_r, V.
  destruct s as [|c s]; [congruence|]. cbn [JS.not_string andb JS.parseExponent].
  unfold JS.roundDecimal, JS.roundInteger.
  destruct m as [|p]; [reflexivity|].
  change (0 - Z.of_nat (String.length ""))%Z with 0%Z.
  cbn [Z.leb Z.compare Z.ltb]. change (Z.to_pos (10 ^ 0)) with 1%positive.
  now rewrite Pos.mul_1_r.
Qed.

(** [Number(String(id))] for a positive integer id is the binary64 value
    nearest to the id. *)
Lemma Number_String_of_id (p : positive) :
  JS.Number (LedgerView.String_of_id (Zpos p)) = JS.roundInteger false (Npos p).
Proof.
  destruct (String_of_id_pos p) as (E & N & D).
  unfold JS.Number. rewrite (trim_digits _ D).
  destruct (LedgerView.String_of_id (Zpos p)) as [|c s] eqn:S; [congruence|].
  rewrite (parseNumericLiteral_digits _ D).
  apply parseUnsignedDecimal_digits; [exact D | discriminate |].
  rewrite E, digitsValue_of_uint. f_equal. apply DecimalPos.Unsigned.of_to.
Qed.

End DecimalTextFacts.

(** ** App.tsx: routes *)

Section RouteFacts.

Import RouteSpec.






End RouteFacts.

Section YearMonthFacts.

Import Platform RouteSpec.

Lemma four_digit_years_check :
  forallb (fun n => Nat.eqb (String.length (LedgerView.String_of_id (Z.of_nat n))) 4)
          (seq (Z.to_nat 1000) (Z.to_nat 9000)) = true.
Proof. vm_compute. reflexivity. Qed.

Lemma four_digit_year (y : Z) :
  (1000 <= y <= 9999)%Z ->
  String.length (LedgerView.String_of_id y) = 4%nat
  /\ allDigits (LedgerView.String_of_id y) = true.
Proof.
  intros R. split.
  - pose proof four_digit_years_check as C.
    rewrite forallb_forall in C.
    specialize (C (Z.to_nat y)). rewrite Z2Nat.id in C by lia.
    apply Nat.eqb_eq, C, in_seq. lia.
  - destruct y as [|p|p]; try lia. apply String_of_id_pos.
Qed.

Lemma two_digit_month (m : Z) :
  (1 <= m <= 12)%Z ->
  String.length (JSLib.padStart 2 "0" (LedgerView.String_of_id m)) = 2%nat
  /\ allDigits (JSLib.padStart 2 "0" (LedgerView.String_of_id m)) = true.
Proof.
  intros R.
  assert (m = 1 \/ m = 2 \/ m = 3 \/ m = 4 \/ m = 5 \/ m = 6 \/ m = 7 \/ m = 8
          \/ m = 9 \/ m = 10 \/ m = 11 \/ m = 12)%Z as C by lia.
  repeat (destruct C as [-> | C]; [split; reflexivity|]). subst m. split; reflexivity.
Qed.

(** For a period with a year of four digits and a month from 1 to 12, the
    year-and-month text that App writes into the address is six decimal
    digits: the year followed by the month, with a leading zero for the
    months 1 to 9.  It is then of the form the route pattern reads. *)
Theorem yearMonth_six_digits :
  forall period : PeriodSummary,
  (1000 <= ps_year period <= 9999)%Z ->
  (1 <= ps_month period <= 12)%Z ->
  sixDigits (App.yearMonth period) = true
  /\ exists yyyy mm,
       App.yearMonth period = yyyy ++ mm
       /\ String.length yyyy = 4%nat /\ String.length mm = 2%nat
       /\ JS.Number yyyy = JS.roundInteger false (Z.to_N (ps_year period))
       /\ (mm = LedgerView.String_of_id (ps_month period)
           \/ mm = "0" ++ LedgerView.String_of_id (ps_month period)).
Proof.
  intros period Y M.
  destruct (four_digit_year _ Y) as (Ly & Dy).
  destruct (two_digit_month _ M) as (Lm & Dm).
  split.
  - unfold sixDigits, App.yearMonth.
    now rewrite length_app, allDigits_app, Ly, Lm, Dy, Dm.
  - exists (LedgerView.String_of_id (ps_year period)),
           (JSLib.padStart 2 "0" (LedgerView.String_of_id (ps_month period))).
    repeat split; auto.
    + destruct (ps_year period) as [|p|p]; try lia. apply Number_String_of_id.
    + assert (ps_month period = 1 \/ ps_month period = 2 \/ ps_month period = 3
              \/ ps_month period = 4 \/ ps_month period = 5 \/ ps_month period = 6
              \/ ps_month period = 7 \/ ps_month period = 8 \/ ps_month period = 9
              \/ ps_month period = 10 \/ ps_month period = 11
              \/ ps_month period = 12)%Z as C by lia.
      repeat (destruct C as [-> | C]; [(right; reflexivity) || (left; reflexivity)|]).
      rewrite C. left. reflexivity.
Qed.

Lemma yearMonth_six_digits_witness :
  sixDigits (App.yearMonth (Samples.summary 7 draft)) = true
  /\ exists yyyy mm,
       App.yearMonth (Samples.summary 7 draft) = yyyy ++ mm
       /\ String.length yyyy = 4%nat /\ String.length mm = 2%nat
       /\ JS.Number yyyy = JS.roundInteger false (Z.to_N 2026)
       /\ (mm = LedgerView.String_of_id 2 \/ mm = "0" ++ LedgerView.String_of_id 2).
Proof.
  apply (yearMonth_six_digits (Samples.summary 7 draft)); cbn; lia.
Defined.

End YearMonthFacts.

Section InvestorIdFacts.

Import Platform PlatformContext LedgerView.

(** The investor select holds [String(investor.id)] and [handleSubmit]
    sends [Number] of that text: for an entry type that takes an investor,
    the request carries the id of the investor chosen (the binary64 value
    nearest to it, which is the id itself below 2^53). *)
Theorem handleSubmit_posts_chosen_investor :
  forall (ctx : Value) (s : State) (r : Api.Request) (investor : Z),
  (0 < investor)%Z ->
  investorId s = String_of_id investor ->
  requiresInvestor (entryType s) = true ->
  handleSubmit ctx s = Sent r ->
  exists clubId periodId payload,
    r = Api.createLedgerEntry clubId periodId payload
    /\ Api.cp_investor_id payload = Some (JS.roundInteger false (Z.to_N investor)).
Proof.
  intros ctx s r i I E R. unfold handleSubmit.
  destruct (selectedClubId ctx) as [c|]; [|discriminate].
  destruct (selectedPeriodId ctx) as [p|]; [|discriminate].
  destruct ((c =? 0)%Z || (p =? 0)%Z || locked ctx); [discriminate|].
  destruct (validateEntryInput _ _ _ _) as [a d|m]; [|discriminate].
  intros [= <-]. eexists c, p, _. split; [reflexivity|]. cbn.
  rewrite R, E. destruct i as [|q|q]; try lia.
  destruct (String_of_id_pos q) as (_ & N & _).
  destruct (String_of_id (Zpos q)) eqn:S; [congruence|].
  cbn [JS.not_string negb andb]. rewrite <- S. f_equal. apply Number_String_of_id.
Qed.

Lemma handleSubmit_posts_chosen_investor_witness :
  exists clubId periodId payload,
    Api.createLedgerEntry 1 7
      {| Api.cp_entry_type := contribution; Api.cp_amount := 2500000%float;
         Api.cp_description := "February contribution"; Api.cp_category := "general";
         Api.cp_tx_date := None; Api.cp_note := None; Api.cp_reference := None;
         Api.cp_investor_id := Some 3%float |}
    = Api.createLedgerEntry clubId periodId payload
    /\ Api.cp_investor_id payload = Some (JS.roundInteger false (Z.to_N 3)).
Proof.
  apply (handleSubmit_posts_chosen_investor
           (usePlatform (Samples.provider draft))
           (Samples.form contribution "2,500,000" "February contribution" "3")
           _ 3); reflexivity.
Defined.

End InvestorIdFacts.

(** ** context/PlatformContext.tsx: [refresh] *)

Section RefreshFacts.

Import Platform PlatformContext PlatformRefresh.

Lemma find_period_by_id (l : list PeriodSummary) (p : Z) :
  existsb (fun period => ps_id period =? p) l = true ->
  exists period,
    List.find (fun period => ps_id period =? p) l = Some period
    /\ ps_id period = p /\ In period l.
Proof.
  induction l as [|x l IH]; [discriminate|]. cbn [existsb List.find].
  destruct (ps_id x =? p) eqn:E.
  - intros _. exists x. apply Z.eqb_eq in E. repeat split; auto. now left.
  - intros H. destruct (IH H) as (period & F & I & M).
    exists period. repeat split; auto. now right.
Qed.

Lemma exists_club_by_id (l : list ClubSummary) (c : Z) :
  existsb (fun club => club_id club =? c) l = true ->
  exists club, In club l /\ club_id club = c.
Proof.
  intros H. apply existsb_exists in H as (club & I & E).
  exists club. split; [exact I | now apply Z.eqb_eq].
Qed.

(** The club and period that [refresh] settles on. *)
Lemma chosen_club (selected : option Z) (clubList : list ClubSummary) (c : Z) :
  (if selectedClubExists selected clubList then selected else firstClubId clubList) = Some c ->
  exists club, In club clubList /\ club_id club = c.
Proof.
  unfold selectedClubExists.
  destruct selected as [i|].
  - destruct (i =? 0).
    + destruct clubList as [|x l]; [discriminate|]. intros [= <-]. exists x. split; [now left | reflexivity].
    + destruct (existsb _ clubList) eqn:E.
      * intros [= <-]. now apply exists_club_by_id.
      * destruct clubList as [|x l]; [discriminate|]. intros [= <-].
        exists x. split; [now left | reflexivity].
  - destruct clubList as [|x l]; [discriminate|]. intros [= <-].
    exists x. split; [now left | reflexivity].
Qed.

Lemma chosen_period (selected : option Z) (periodList : list PeriodSummary) (p : Z) :
  (if selectedPeriodExists selected periodList then selected else firstPeriodId periodList)
  = Some p ->
  exists period,
    List.find (fun period => ps_id period =? p) periodList = Some period
    /\ ps_id period = p /\ In period periodList.
Proof.
  assert (First : firstPeriodId periodList = Some p ->
                  exists period,
                    List.find (fun period => ps_id period =? p) periodList = Some period
                    /\ ps_id period = p /\ In period periodList).
  { destruct periodList as [|x l]; [discriminate|]. intros [= <-].
    exists x. cbn [List.find]. rewrite Z.eqb_refl. repeat split. now left. }
  unfold selectedPeriodExists.
  destruct selected as [i|]; [|exact First].
  destruct (i =? 0); [exact First|].
  destruct (existsb _ periodList) eqn:E; [|exact First].
  intros [= <-]. now apply find_period_by_id.
Qed.

Lemma no_chosen_period (selected : option Z) (periodList : list PeriodSummary) :
  (if selectedPeriodExists selected periodList then selected else firstPeriodId periodList)
  = None ->
  periodList = [].
Proof.
  unfold selectedPeriodExists.
  destruct periodList as [|x l]; [reflexivity|].
  destruct selected as [i|]; [|discriminate].
  destruct (i =? 0); [discriminate|].
  destruct (existsb _ (x :: l)); discriminate.
Qed.

(** After a [refresh] in which the club list and the period list arrive,
    what the views get is coherent, whatever the cells held before: the
    club list is the one fetched; a selected club is a club of that list
    with a non-zero id; a selected period is a period of the list now held,
    [selectedPeriod] is its summary and the status is that summary's; and
    with no period selected the period list is empty, nothing is loaded,
    the view is not locked and the status reads draft. *)
Theorem refresh_context_coherent :
  forall (srv : Server) (st : State) (clubList : list ClubSummary),
  fetchClubs srv = Resolved clubList ->
  (forall c, exists periodList, fetchPeriods srv c = Resolved periodList) ->
  let st' := refresh srv st in
  let ctx := usePlatform (cells st') in
  clubs st' = clubList
  /\ (forall c, selectedClubId ctx = Some c ->
        c <> 0 /\ exists club, In club clubList /\ club_id club = c)
  /\ (forall p, selectedPeriodId ctx = Some p ->
        exists period,
          selectedPeriod ctx = Some period
          /\ ps_id period = p
          /\ In period (periods (cells st'))
          /\ ctx_status ctx = ps_status period)
  /\ (selectedPeriodId ctx = None ->
        periods (cells st') = []
        /\ selectedPeriod ctx = None
        /\ periodState ctx = None
        /\ ctx_checklist ctx = None
        /\ locked ctx = false
        /\ ctx_status ctx = draft).
Proof.
  intros srv st clubList FC FP. unfold refresh. rewrite FC.
  set (clubId := if selectedClubExists _ clubList then _ else _).
  assert (Cleared :
            let ctx := usePlatform cleared in
            (forall c, selectedClubId ctx = Some c ->
               c <> 0 /\ exists club, In club clubList /\ club_id club = c)
            /\ (forall p, selectedPeriodId ctx = Some p ->
                  exists period,
                    selectedPeriod ctx = Some period
                    /\ ps_id period = p
                    /\ In period (periods cleared)
                    /\ ctx_status ctx = ps_status period)
            /\ (selectedPeriodId ctx = None ->
                  periods cleared = []
                  /\ selectedPeriod ctx = None
                  /\ periodState ctx = None
                  /\ ctx_checklist ctx = None
                  /\ locked ctx = false
                  /\ ctx_status ctx = draft)).
  { cbn. split; [discriminate|]. split; [discriminate|]. intros _. repeat split. }
  destruct clubId as [c|] eqn:EC; subst clubId.
  2: { split; [reflexivity | exact Cleared]. }
  destruct (c =? 0) eqn:Z0.
  { split; [reflexivity | exact Cleared]. }
  clear Cleared. apply Z.eqb_neq in Z0.
  destruct (FP c) as (periodList & ->).
  set (periodId := if selectedPeriodExists _ periodList then _ else _).
  assert (Club : forall c', Some c = Some c' ->
                 c' <> 0 /\ exists club, In club clubList /\ club_id club = c').
  { intros c' [= <-]. split; [exact Z0|]. now apply chosen_club in EC. }
  destruct periodId as [p|] eqn:EP; subst periodId.
  - assert (Sel : forall ps cl rc,
              let cs := {| periods := periodList; st_selectedClubId := Some c;
                           st_selectedPeriodId := Some p; st_periodState := ps;
                           st_checklist := cl; st_reconciliation := rc |} in
              forall p', Some p = Some p' ->
              exists period,
                selectedPeriod (usePlatform cs) = Some period
                /\ ps_id period = p'
                /\ In period periodList
                /\ ctx_status (usePlatform cs) = ps_status period).
    { intros ps cl rc cs p' [= <-]. apply chosen_period in EP as (period & F & I & M).
      exists period. unfold usePlatform, findSelectedPeriod, computeStatus; cbn.
      rewrite F. repeat split; auto. }
    destruct (p =? 0).
    + cbn. split; [reflexivity|]. split; [exact Club|].
      split; [exact (Sel None None None) | discriminate].
    + destruct (fetchPeriodData srv c p) as [data|message]; cbn.
      * split; [reflexivity|]. split; [exact Club|].
        split; [|discriminate].
        exact (Sel (Some (pd_state data)) (Some (pd_checklist data)) (Some (pd_stamp data))).
      * split; [reflexivity|]. split; [exact Club|].
        split; [|discriminate].
        exact (Sel (st_periodState (cells st)) (st_checklist (cells st))
                   (st_reconciliation (cells st))).
  - apply no_chosen_period in EP. subst periodList. cbn.
    split; [reflexivity|]. split; [exact Club|].
    split; [discriminate|]. intros _. repeat split.
Qed.

Lemma refresh_context_coherent_witness :
  let srv :=
    {| fetchClubs := Resolved [ {| club_id := 1; code := "ALPHA"; name := "Alpha Club";
                                   currency := "UGX"; is_active := true |} ];
       fetchPeriods := fun _ => Resolved [Samples.summary 7 review; Samples.summary 8 draft];
       fetchPeriodData := fun _ _ => Failed "API request failed: 500" |} in
  let st := {| clubs := []; cells := Samples.provider closed; error := None |} in
  let st' := refresh srv st in
  let ctx := usePlatform (cells st') in
  clubs st' = [ {| club_id := 1; code := "ALPHA"; name := "Alpha Club";
                   currency := "UGX"; is_active := true |} ]
  /\ (forall c, selectedClubId ctx = Some c ->
        c <> 0 /\ exists club,
                    In club [ {| club_id := 1; code := "ALPHA"; name := "Alpha Club";
                                 currency := "UGX"; is_active := true |} ]
                    /\ club_id club = c)
  /\ (forall p, selectedPeriodId ctx = Some p ->
        exists period,
          selectedPeriod ctx = Some period
          /\ ps_id period = p
          /\ In period (periods (cells st'))
          /\ ctx_status ctx = ps_status period)
  /\ (selectedPeriodId ctx = None ->
        periods (cells st') = []
        /\ selectedPeriod ctx = None
        /\ periodState ctx = None
        /\ ctx_checklist ctx = None
        /\ locked ctx = false
        /\ ctx_status ctx = draft).
Proof.
  cbv zeta.
  apply (refresh_context_coherent
           {| fetchClubs := Resolved [ {| club_id := 1; code := "ALPHA"; name := "Alpha Club";
                                          currency := "UGX"; is_active := true |} ];
              fetchPeriods := fun _ => Resolved [Samples.summary 7 review; Samples.summary 8 draft];
              fetchPeriodData := fun _ _ => Failed "API request failed: 500" |}
           {| clubs := []; cells := Samples.provider closed; error := None |}).
  - reflexivity.
  - intros c. eexists. reflexivity.
Defined.

(** [refresh] keeps a selection that is still listed: when the selected club
    is in the fetched club list and the selected period in that club's
    period list, both stay selected, and the period's state, checklist and
    stamp are the ones fetched for it.  After [setSelectedClubId] the
    period is cleared, so the next [refresh] selects the first period
    listed for the new club. *)
Theorem refresh_keeps_listed_selection :
  forall (srv : Server) (st : State) (clubList : list ClubSummary)
         (periodList : list PeriodSummary) (c p : Z) (data : PeriodData),
  fetchClubs srv = Resolved clubList ->
  fetchPeriods srv c = Resolved periodList ->
  c <> 0 -> (exists club, In club clubList /\ club_id club = c) ->
  st_selectedClubId (cells st) = Some c ->
  (st_selectedPeriodId (cells st) = Some p
   /\ p <> 0 /\ (exists period, In period periodList /\ ps_id period = p)
   \/ st_selectedPeriodId (cells st) = None
      /\ p <> 0 /\ firstPeriodId periodList = Some p) ->
  fetchPeriodData srv c p = Resolved data ->
  refresh srv st
  = {| clubs := clubList;
       cells := {| periods := periodList;
                   st_selectedClubId := Some c;
                   st_selectedPeriodId := Some p;
                   st_periodState := Some (pd_state data);
                   st_checklist := Some (pd_checklist data);
                   st_reconciliation := Some (pd_stamp data) |};
       error := None |}.
Proof.
  intros srv st clubList periodList c p data FC FP C0 (club & IC & EC) SC SP FD.
  unfold refresh. rewrite FC, SC.
  assert (CE : selectedClubExists (Some c) clubList = true).
  { unfold selectedClubExists. apply Z.eqb_neq in C0. rewrite C0.
    apply existsb_exists. exists club. split; [exact IC | now apply Z.eqb_eq]. }
  rewrite CE. apply Z.eqb_neq in C0. rewrite C0, FP.
  assert (PE : (if selectedPeriodExists (st_selectedPeriodId (cells st)) periodList
                then st_selectedPeriodId (cells st) else firstPeriodId periodList) = Some p
               /\ (p =? 0) = false).
  { destruct SP as [(S & P0 & period & IP & EP) | (S & P0 & F)]; rewrite S;
      apply Z.eqb_neq in P0; (split; [|exact P0]).
    - unfold selectedPeriodExists. rewrite P0.
      replace (existsb _ periodList) with true; [reflexivity|].
      symmetry. apply existsb_exists. exists period. split; [exact IP | now apply Z.eqb_eq].
    - exact F. }
  destruct PE as (-> & ->). now rewrite FD.
Qed.

Lemma refresh_keeps_listed_selection_witness :
  let club := {| club_id := 1; code := "ALPHA"; name := "Alpha Club";
                 currency := "UGX"; is_active := true |} in
  let data := {| pd_state := {| period_id := 8; Platform.club_id := 1; status := draft;
                                opening_nav := "0.00"; closing_nav := "0.00";
                                reconciliation_diff := "0.00"; locked_at := None |};
                 pd_stamp := {| reconciled := true; stamp := "Reconciled";
                                mismatch_ugx := "0.00"; club_closing_nav := "0.00";
                                investor_total := "0.00" |};
                 pd_checklist := {| can_close := false; checklist := ∅;
                                    reconciliation_stamp := "Reconciled";
                                    cc_mismatch_ugx := "0.00" |} |} in
  let srv := {| fetchClubs := Resolved [club];
                fetchPeriods := fun _ => Resolved [Samples.summary 8 draft; Samples.summary 7 review];
                fetchPeriodData := fun _ _ => Resolved data |} in
  let st := setSelectedClubId 1 {| clubs := [club]; cells := Samples.provider closed;
                                   error := None |} in
  refresh srv st
  = {| clubs := [club];
       cells := {| periods := [Samples.summary 8 draft; Samples.summary 7 review];
                   st_selectedClubId := Some 1;
                   st_selectedPeriodId := Some 8;
                   st_periodState := Some (pd_state data);
                   st_checklist := Some (pd_checklist data);
                   st_reconciliation := Some (pd_stamp data) |};
       error := None |}.
Proof.
  cbv zeta.
  eapply refresh_keeps_listed_selection; try reflexivity.
  - discriminate.
  - eexists. split; [left; reflexivity | reflexivity].
  - right. repeat split. discriminate.
Defined.

End RefreshFacts.

(** ** lib/utils.ts: formatting *)

Section FormatFacts.

Import RouteSpec.

Local Open Scope float_scope.

Variable numberToString : JS.number -> string.

Lemma decimalDigits_digits (n : N) : allDigits (JSLib.decimalDigits n) = true.
Proof.
  unfold JSLib.decimalDigits, NilZero.string_of_uint.
  destruct (N.to_uint n) as [|u|u|u|u|u|u|u|u|u|u]; [reflexivity|..];
    match goal with |- allDigits (NilEmpty.string_of_uint ?d) = _ =>
      exact (string_of_uint_digits d) end.
Qed.

Lemma decimalDigits_length (n : N) : (1 <= String.length (JSLib.decimalDigits n))%nat.
Proof.
  unfold JSLib.decimalDigits, NilZero.string_of_uint.
  destruct (N.to_uint n); cbn [NilEmpty.string_of_uint String.length]; lia.
Qed.

Lemma length_string_of_list_ascii (l : list ascii) :
  String.length (string_of_list_ascii l) = List.length l.
Proof. induction l as [|c l IH]; [reflexivity|]. cbn. now rewrite IH. Qed.

Lemma padStart_length (k : nat) (c : ascii) (s : string) :
  String.length (JSLib.padStart k c s) = Nat.max k (String.length s).
Proof.
  unfold JSLib.padStart.
  rewrite length_app, length_string_of_list_ascii, repeat_length. lia.
Qed.

Lemma padStart_zero_digits (k : nat) (s : string) :
  allDigits s = true -> allDigits (JSLib.padStart k "0" s) = true.
Proof.
  intros D. unfold JSLib.padStart. rewrite allDigits_app, D, andb_true_r.
  induction (k - String.length s)%nat as [|j IH]; [reflexivity|exact IH].
Qed.

Lemma splitAt_spec (k : nat) (s : string) :
  (k <= String.length s)%nat ->
  fst (JSLib.splitAt k s) ++ snd (JSLib.splitAt k s) = s
  /\ String.length (fst (JSLib.splitAt k s)) = k.
Proof.
  revert s. induction k as [|k IH]; intros s L.
  - split; reflexivity.
  - destruct s as [|c s]; [cbn in L; lia|].
    cbn [JSLib.splitAt]. cbn [String.length] in L.
    destruct (IH s ltac:(lia)) as (E & N).
    destruct (JSLib.splitAt k s) as [a b]. cbn [fst snd] in *.
    split; [now rewrite append_cons, E | cbn [String.length]; now rewrite N].
Qed.

(** The text [toFixed] writes for a magnitude: digits, a point, and as many
    digits as were asked for. *)
Lemma fixedDigits_shape (n : N) (f : nat) :
  exists int frac,
    JSLib.fixedDigits n (S f) = int ++ "." ++ frac
    /\ int <> "" /\ allDigits int = true
    /\ allDigits frac = true /\ String.length frac = S f.
Proof.
  unfold JSLib.fixedDigits.
  set (m' := JSLib.padStart (S f + 1) "0" (JSLib.decimalDigits n)).
  assert (String.length m' = Nat.max (S f + 1) (String.length (JSLib.decimalDigits n)))
    as L by apply padStart_length.
  assert (allDigits m' = true) as D
    by (apply padStart_zero_digits, decimalDigits_digits).
  destruct (splitAt_spec (String.length m' - S f) m' ltac:(lia)) as (E & N).
  destruct (JSLib.splitAt (String.length m' - S f) m') as [a b]. cbn [fst snd] in *.
  exists a, b.
  assert (String.length b = S f) as Lb.
  { pose proof (length_app a b) as A. rewrite E in A. lia. }
  rewrite <- E, allDigits_app in D. apply andb_true_iff in D as (Da & Db).
  split; [reflexivity|]. split; [|auto].
  intros ->. cbn in N. lia.
Qed.

(** Below 10^21 in magnitude, [toFixed] writes a minus sign for a negative
    number and then the digits. *)
Lemma toFixed_shape (x : JS.number) (f : nat) :
  JSLib.inFixedRange x = true ->
  exists int frac,
    JSLib.toFixed numberToString x (S f)
    = (if x <? 0 then "-" else "") ++ int ++ "." ++ frac
    /\ int <> "" /\ allDigits int = true
    /\ allDigits frac = true /\ String.length frac = S f.
Proof.
  unfold JSLib.inFixedRange, JSLib.toFixed. rewrite ltb_spec.
  change (Prim2SF 0) with (S754_zero false).
  destruct (Prim2SF x) as [s|s| |s m e]; try discriminate; intros R.
  - destruct (fixedDigits_shape 0 f) as (a & b & E & H).
    exists a, b. split; [|exact H]. now rewrite E.
  - apply negb_true_iff in R. rewrite R.
    destruct (fixedDigits_shape (JSLib.scaledNearest m e (S f)) f) as (a & b & E & H).
    exists a, b. split; [|exact H]. rewrite E. now destruct s.
Qed.


(** What is below a positive number is not above a larger one. *)
Lemma SFleb_above_bound (x : spec_float) (m1 m2 : positive) (e1 e2 : Z) :
  SFltb x (S754_finite false m1 e1) = true ->
  (e1 < e2 \/ e1 = e2 /\ (m1 <= m2)%positive)%Z ->
  SFleb (S754_finite false m2 e2) x = false.
Proof.
  unfold SFltb, SFleb.
  destruct x as [s|s| |s m e]; cbn [SFcompare].
  - reflexivity.
  - destruct s; [reflexivity | discriminate].
  - discriminate.
  - destruct s; [reflexivity|].
    intros H O.
    destruct (Z.compare_spec e e1) as [E1 | L1 | G1]; [| |discriminate H].
    + destruct (Z.compare_spec e2 e) as [E2 | L2 | G2]; [|exfalso; lia|reflexivity].
      destruct (Pos.compare_cont Eq m m1) eqn:C; try discriminate H.
      change (Pos.compare_cont Eq m m1) with (Pos.compare m m1) in C.
      pose proof (proj1 (Pos.compare_lt_iff m m1) C) as C'.
      assert (Pos.compare m2 m = Gt) as G by (apply Pos.compare_gt_iff; lia).
      change (Pos.compare_cont Eq m2 m) with (Pos.compare m2 m). now rewrite G.
    + destruct (Z.compare_spec e2 e) as [E2 | L2 | G2]; [exfalso; lia|exfalso; lia|reflexivity].
Qed.

(** A number below 1000 reaches none of the three thresholds. *)
Lemma below_thousand (x : JS.number) :
  (x <? 1000) = true ->
  (1000000000 <=? x) = false /\ (1000000 <=? x) = false /\ (1000 <=? x) = false.
Proof.
  rewrite ltb_spec, !leb_spec.
  set (k := Prim2SF 1000). vm_compute in k. subst k.
  set (k := Prim2SF 1000000). vm_compute in k. subst k.
  set (k := Prim2SF 1000000000). vm_compute in k. subst k.
  intros H.
  split; [|split].
  - apply (SFleb_above_bound _ _ _ _ _ H). left. reflexivity.
  - apply (SFleb_above_bound _ _ _ _ _ H). left. reflexivity.
  - apply (SFleb_above_bound _ _ _ _ _ H). right. split; [reflexivity | apply Pos.le_refl].
Qed.

(** [formatCurrency] writes the currency, a blank, and what [formatNumber]
    writes for the value. *)
Theorem formatCurrency_is_prefixed_formatNumber :
  forall (value : JS.number) (currency : string),
  Format.formatCurrency numberToString value currency
  = currency ++ " " ++ Format.formatNumber numberToString value.
Proof.
  intros value currency. unfold Format.formatCurrency, Format.formatNumber.
  destruct (1000000000 <=? value); [reflexivity|].
  destruct (1000000 <=? value); [reflexivity|].
  destruct (1000 <=? value); reflexivity.
Qed.

(** An amount below 1000, any negative amount included, is never
    abbreviated with K, M or B: below 10^21 in magnitude [formatNumber]
    writes it in full as an optional minus sign, at least one digit, a
    point and two digits.  [formatCurrency] writes the same after the
    currency. *)
Theorem formatNumber_below_thousand_in_full :
  forall (value : JS.number) (currency : string),
  (value <? 1000) = true ->
  JSLib.inFixedRange value = true ->
  exists int frac,
    Format.formatNumber numberToString value
    = (if value <? 0 then "-" else "") ++ int ++ "." ++ frac
    /\ Format.formatCurrency numberToString value currency
       = currency ++ " " ++ (if value <? 0 then "-" else "") ++ int ++ "." ++ frac
    /\ int <> "" /\ allDigits int = true
    /\ allDigits frac = true /\ String.length frac = 2%nat.
Proof.
  intros value currency B R.
  destruct (below_thousand value B) as (B9 & B6 & B3).
  destruct (toFixed_shape value 1 R) as (int & frac & E & H).
  exists int, frac.
  unfold Format.formatCurrency, Format.formatNumber, Format.toFixed.
  rewrite B9, B6, B3, E. split; [reflexivity|]. split; [reflexivity|exact H].
Qed.


End FormatFacts.

Section FormatExamples.

Import RouteSpec.

Local Open Scope float_scope.

Lemma formatNumber_below_thousand_in_full_witness :
  (-5000000 <? 1000) = true
  /\ JSLib.inFixedRange (-5000000) = true
  /\ exists int frac,
       Format.formatNumber (fun _ => "1e+21") (-5000000)
       = (if -5000000 <? 0 then "-" else "") ++ int ++ "." ++ frac
       /\ Format.formatCurrency (fun _ => "1e+21") (-5000000) "UGX"
          = "UGX" ++ " " ++ (if -5000000 <? 0 then "-" else "") ++ int ++ "." ++ frac
       /\ int <> "" /\ allDigits int = true
       /\ allDigits frac = true /\ String.length frac = 2%nat.
Proof.
  split; [reflexivity|]. split; [reflexivity|].
  apply (formatNumber_below_thousand_in_full (fun _ => "1e+21") (-5000000) "UGX"); reflexivity.
Defined.


End FormatExamples.
